(** * Verification of the claudescreenfix terminal supervisor (v2.0.0)

    Shallow embedding of [src/unnamed/part_001] (the v2 [index.cjs]: stdout
    hook, resize debounce, install/disable) and [src/glitch-detector.cjs]
    (the glitch detector).  JavaScript strings are lists of UTF-16 code
    units ([list Z]); timestamps ([Date.now()]) are [Z] milliseconds and are
    passed explicitly as [now]. *)

From Stdlib Require Import ZArith List String Ascii Bool Lia.
Import ListNotations.
Open Scope Z_scope.

(* ------------------------------------------------------------------ *)
(** ** JavaScript strings *)

Definition jsstr := list Z.

(** A JS string literal written with printable ASCII characters. *)
Definition js (s : string) : jsstr :=
  map (fun a => Z.of_nat (nat_of_ascii a)) (list_ascii_of_string s).

Definition ESC : Z := 27.

Fixpoint startsWith (s p : jsstr) : bool :=
  match p, s with
  | [], _ => true
  | x :: p', y :: s' => Z.eqb x y && startsWith s' p'
  | _ :: _, [] => false
  end.

(** [s.includes(p)] *)
Fixpoint includes (s p : jsstr) : bool :=
  startsWith s p ||
  match s with
  | [] => false
  | _ :: s' => includes s' p
  end.

(** [(chunk.match(/\n/g) || []).length] *)
Definition count_nl (s : jsstr) : Z :=
  Z.of_nat (List.length (filter (fun c => Z.eqb c 10) s)).

(* ------------------------------------------------------------------ *)
(** ** Escape directives (part_001, lines 27-31) *)

Definition CLEAR_SCROLLBACK : jsstr := ESC :: js "[3J".
Definition CURSOR_SAVE : jsstr := ESC :: js "[s".
Definition CURSOR_RESTORE : jsstr := ESC :: js "[u".
Definition CLEAR_SCREEN : jsstr := ESC :: js "[2J".
Definition HOME_CURSOR : jsstr := ESC :: js "[H".

(** The forced-trim sequence [CURSOR_SAVE + CLEAR_SCROLLBACK + CURSOR_RESTORE]. *)
Definition FORCED_TRIM : jsstr := CURSOR_SAVE ++ CLEAR_SCROLLBACK ++ CURSOR_RESTORE.

(* ------------------------------------------------------------------ *)
(** ** [isStdinEcho] (part_001, lines 86-104) *)

Definition charCodeAt0 (s : jsstr) : Z :=
  match s with c :: _ => c | [] => 0 end.

Definition len (s : jsstr) : Z := Z.of_nat (List.length s).

Definition isStdinEcho (chunk : jsstr) : bool :=
  (* single printable character (including space) *)
  if (len chunk =? 1) && (32 <=? charCodeAt0 chunk) && (charCodeAt0 chunk <=? 126)
  then true
  (* backspace/delete echo *)
  else if (len chunk <=? 4) && (includes chunk [8] || includes chunk [127])
  then true
  (* arrow key echo or cursor movement *)
  else if (len chunk <=? 6) && startsWith chunk [ESC; 91]
          && negb (includes chunk (js "J")) && negb (includes chunk (js "H"))
  then true
  (* enter/newline *)
  else if list_eq_dec Z.eq_dec chunk [10] then true
  else if list_eq_dec Z.eq_dec chunk [13] then true
  else if list_eq_dec Z.eq_dec chunk [13; 10] then true
  else false.

(* ------------------------------------------------------------------ *)
(** ** Glitch detector ([src/glitch-detector.cjs]) *)

Module Detector.

(** [DEFAULT_CONFIG] merged with the constructor's [config] argument. *)
Record DConfig := {
  stdinTimeoutMs : Z;
  sigwinchThresholdMs : Z;
  sigwinchStormCount : Z;
  renderRateLimit : Z;
  checkIntervalMs : Z;
  recoveryDelayMs : Z
}.

Definition DEFAULT_CONFIG : DConfig := {|
  stdinTimeoutMs := 2000; sigwinchThresholdMs := 10; sigwinchStormCount := 5;
  renderRateLimit := 500; checkIntervalMs := 500; recoveryDelayMs := 1000 |}.

Record Metrics := {
  glitchesDetected : Z;
  recoveriesAttempted : Z;
  stdinSilenceEvents : Z;
  sigwinchStorms : Z;
  renderSpikes : Z
}.

(** The fields of a [GlitchDetector] instance; [glitchStartTime] is [None]
    for JS [null]. *)
Record GlitchDetector := {
  lastStdinTime : Z;
  lastStdoutTime : Z;
  lastSigwinchTime : Z;
  sigwinchCount : Z;
  renderTimes : list Z;
  isGlitched : bool;
  glitchStartTime : option Z;
  metrics : Metrics;
  checkInterval : bool;   (* interval handle present *)
  installed : bool
}.

(** Events passed to [this.emit]. *)
Inductive DetEvent :=
| GlitchDetectedEv (stdinBlocked sigwinchStorm renderSpike : bool)
| GlitchResolvedEv (duration : Z)
| RecoveryStarted
| RecoverySuccess (method : string)
| RecoveryFailed
| RecoveryError.

(** Functional record updates. *)
Definition with_metrics (m : Metrics) (d : GlitchDetector) : GlitchDetector :=
  {| lastStdinTime := lastStdinTime d; lastStdoutTime := lastStdoutTime d;
     lastSigwinchTime := lastSigwinchTime d; sigwinchCount := sigwinchCount d;
     renderTimes := renderTimes d; isGlitched := isGlitched d;
     glitchStartTime := glitchStartTime d; metrics := m;
     checkInterval := checkInterval d; installed := installed d |}.

Definition with_glitch (g : bool) (start : option Z) (d : GlitchDetector)
  : GlitchDetector :=
  {| lastStdinTime := lastStdinTime d; lastStdoutTime := lastStdoutTime d;
     lastSigwinchTime := lastSigwinchTime d; sigwinchCount := sigwinchCount d;
     renderTimes := renderTimes d; isGlitched := g;
     glitchStartTime := start; metrics := metrics d;
     checkInterval := checkInterval d; installed := installed d |}.

Definition bump_glitches (m : Metrics) : Metrics :=
  {| glitchesDetected := glitchesDetected m + 1;
     recoveriesAttempted := recoveriesAttempted m;
     stdinSilenceEvents := stdinSilenceEvents m;
     sigwinchStorms := sigwinchStorms m; renderSpikes := renderSpikes m |}.
Definition bump_recoveries (m : Metrics) : Metrics :=
  {| glitchesDetected := glitchesDetected m;
     recoveriesAttempted := recoveriesAttempted m + 1;
     stdinSilenceEvents := stdinSilenceEvents m;
     sigwinchStorms := sigwinchStorms m; renderSpikes := renderSpikes m |}.
Definition bump_silence (m : Metrics) : Metrics :=
  {| glitchesDetected := glitchesDetected m;
     recoveriesAttempted := recoveriesAttempted m;
     stdinSilenceEvents := stdinSilenceEvents m + 1;
     sigwinchStorms := sigwinchStorms m; renderSpikes := renderSpikes m |}.
Definition bump_storms (m : Metrics) : Metrics :=
  {| glitchesDetected := glitchesDetected m;
     recoveriesAttempted := recoveriesAttempted m;
     stdinSilenceEvents := stdinSilenceEvents m;
     sigwinchStorms := sigwinchStorms m + 1; renderSpikes := renderSpikes m |}.
Definition bump_spikes (m : Metrics) : Metrics :=
  {| glitchesDetected := glitchesDetected m;
     recoveriesAttempted := recoveriesAttempted m;
     stdinSilenceEvents := stdinSilenceEvents m;
     sigwinchStorms := sigwinchStorms m; renderSpikes := renderSpikes m + 1 |}.

Definition zero_metrics : Metrics :=
  {| glitchesDetected := 0; recoveriesAttempted := 0; stdinSilenceEvents := 0;
     sigwinchStorms := 0; renderSpikes := 0 |}.

(** [constructor] at time [now]. *)
Definition create (now : Z) : GlitchDetector :=
  {| lastStdinTime := now; lastStdoutTime := 0; lastSigwinchTime := 0;
     sigwinchCount := 0; renderTimes := []; isGlitched := false;
     glitchStartTime := None; metrics := zero_metrics;
     checkInterval := false; installed := false |}.

(** [trackStdout()]: record an output sample, keep the last minute. *)
Definition trackStdout (now : Z) (d : GlitchDetector) : GlitchDetector :=
  {| lastStdinTime := lastStdinTime d; lastStdoutTime := now;
     lastSigwinchTime := lastSigwinchTime d; sigwinchCount := sigwinchCount d;
     renderTimes := filter (fun t => now - t <? 60000) (renderTimes d ++ [now]);
     isGlitched := isGlitched d; glitchStartTime := glitchStartTime d;
     metrics := metrics d; checkInterval := checkInterval d;
     installed := installed d |}.

(** [onSigwinch()] (the 1s decay timer it arms is [sigwinchDecay]). *)
Definition onSigwinch (cfg : DConfig) (now : Z) (d : GlitchDetector)
  : GlitchDetector :=
  let interval := now - lastSigwinchTime d in
  {| lastStdinTime := lastStdinTime d; lastStdoutTime := lastStdoutTime d;
     lastSigwinchTime := now;
     sigwinchCount := if interval <? sigwinchThresholdMs cfg
                      then sigwinchCount d + 1 else sigwinchCount d;
     renderTimes := renderTimes d; isGlitched := isGlitched d;
     glitchStartTime := glitchStartTime d; metrics := metrics d;
     checkInterval := checkInterval d; installed := installed d |}.

(** The decay timer body: [if (this.sigwinchCount > 0) this.sigwinchCount--]. *)
Definition sigwinchDecay (d : GlitchDetector) : GlitchDetector :=
  {| lastStdinTime := lastStdinTime d; lastStdoutTime := lastStdoutTime d;
     lastSigwinchTime := lastSigwinchTime d;
     sigwinchCount := if 0 <? sigwinchCount d then sigwinchCount d - 1
                      else sigwinchCount d;
     renderTimes := renderTimes d; isGlitched := isGlitched d;
     glitchStartTime := glitchStartTime d; metrics := metrics d;
     checkInterval := checkInterval d; installed := installed d |}.

(** The [process.stdin.on('data')] listener installed by [install()]. *)
Definition stdinData (now : Z) (d : GlitchDetector) : GlitchDetector :=
  {| lastStdinTime := now; lastStdoutTime := lastStdoutTime d;
     lastSigwinchTime := lastSigwinchTime d; sigwinchCount := sigwinchCount d;
     renderTimes := renderTimes d; isGlitched := isGlitched d;
     glitchStartTime := glitchStartTime d; metrics := metrics d;
     checkInterval := checkInterval d; installed := installed d |}.

(** SIGNAL 1: [checkStdinSilence()]. *)
Definition checkStdinSilence (cfg : DConfig) (now : Z) (d : GlitchDetector)
  : bool * GlitchDetector :=
  let stdinSilence := now - lastStdinTime d in
  let outputActive := now - lastStdoutTime d <? 5000 in
  if (stdinTimeoutMs cfg <? stdinSilence) && outputActive
  then (true, with_metrics (bump_silence (metrics d)) d)
  else (false, d).

(** SIGNAL 2: [checkSigwinchStorm()]. *)
Definition checkSigwinchStorm (cfg : DConfig) (d : GlitchDetector)
  : bool * GlitchDetector :=
  let isStorm := sigwinchStormCount cfg <=? sigwinchCount d in
  if isStorm then (true, with_metrics (bump_storms (metrics d)) d)
  else (false, d).

(** SIGNAL 3: [checkRenderSpike()]. *)
Definition checkRenderSpike (cfg : DConfig) (d : GlitchDetector)
  : bool * GlitchDetector :=
  let rendersPerMinute := Z.of_nat (List.length (renderTimes d)) in
  let isSpike := renderRateLimit cfg <? rendersPerMinute in
  if isSpike then (true, with_metrics (bump_spikes (metrics d)) d)
  else (false, d).

(** The second half of [checkGlitchState()]: the vote on the three signal
    values and the state transition it drives. *)
Definition vote_transition (stdinBlocked sigwinchStorm renderSpike : bool)
    (now : Z) (d : GlitchDetector) : bool * GlitchDetector * list DetEvent :=
  let signals := [stdinBlocked; sigwinchStorm; renderSpike] in
  let activeSignals := Z.of_nat (List.length (filter (fun b => b) signals)) in
  let glitched := (2 <=? activeSignals) || stdinBlocked in
  if glitched && negb (isGlitched d) then
    (glitched,
     with_metrics (bump_glitches (metrics d)) (with_glitch true (Some now) d),
     [GlitchDetectedEv stdinBlocked sigwinchStorm renderSpike])
  else if negb glitched && isGlitched d then
    (* [Date.now() - this.glitchStartTime]; [null] coerces to 0 *)
    let duration := now - match glitchStartTime d with Some t => t | None => 0 end in
    (glitched, with_glitch false None d, [GlitchResolvedEv duration])
  else (glitched, d, []).

(** [checkGlitchState()]. *)
Definition checkGlitchState (cfg : DConfig) (now : Z) (d : GlitchDetector)
  : bool * GlitchDetector * list DetEvent :=
  let '(stdinBlocked, d1) := checkStdinSilence cfg now d in
  let '(sigwinchStorm, d2) := checkSigwinchStorm cfg d1 in
  let '(renderSpike, d3) := checkRenderSpike cfg d2 in
  vote_transition stdinBlocked sigwinchStorm renderSpike now d3.

(** [isInGlitchState()]. *)
Definition isInGlitchState (d : GlitchDetector) : bool := isGlitched d.

(** [reset()] at time [now]. *)
Definition reset (now : Z) (d : GlitchDetector) : GlitchDetector :=
  {| lastStdinTime := now; lastStdoutTime := now;
     lastSigwinchTime := lastSigwinchTime d; sigwinchCount := 0;
     renderTimes := []; isGlitched := false; glitchStartTime := None;
     metrics := metrics d; checkInterval := checkInterval d;
     installed := installed d |}.

End Detector.

(* ------------------------------------------------------------------ *)
(** ** [attemptRecovery()] (glitch-detector.cjs, lines 239-290)

    The method is [async]; its effects are threaded through a small
    state-and-exception monad.  The outside world is a [RecEnv]: the two
    environment variables, whether [execSync] and [process.stdout.write]
    throw, [process.stdout.isTTY], and for each [sleep] the time at which
    it resumes and the detector activity that ran while it was suspended. *)

Module Recovery.
Import Detector.

Inductive Action :=
| ScreenStuff (session : string)   (* execSync(`screen -S .. -X stuff ..`) *)
| WriteClearScrollback              (* process.stdout.write('\x1b[3J') *)
| Sleep (ms : Z).

Record RecEnv := {
  env_STY : option string;
  env_SPECMEM_SCREEN_SESSION : option string;
  execSync_throws : bool;
  stdout_isTTY : bool;
  stdout_write_throws : bool;
  resume1 : Z;
  during_sleep1 : GlitchDetector -> GlitchDetector;
  resume2 : Z;
  during_sleep2 : GlitchDetector -> GlitchDetector
}.

Record RState := { det : GlitchDetector; events : list DetEvent; actions : list Action }.

Inductive Outcome (A : Type) := Ok (a : A) | Thrown.
Arguments Ok {A} a.
Arguments Thrown {A}.

Definition Rec (A : Type) := RState -> Outcome A * RState.

Definition ret {A} (a : A) : Rec A := fun s => (Ok a, s).
Definition bind {A B} (m : Rec A) (k : A -> Rec B) : Rec B :=
  fun s => match m s with
           | (Ok a, s') => k a s'
           | (Thrown, s') => (Thrown, s')
           end.
Definition throw {A} : Rec A := fun s => (Thrown, s).
(** [try { m } catch (err) { h }] *)
Definition try_catch {A} (m : Rec A) (h : Rec A) : Rec A :=
  fun s => match m s with
           | (Ok a, s') => (Ok a, s')
           | (Thrown, s') => h s'
           end.

Notation "x <- m ;; k" := (bind m (fun x => k)) (at level 61, m at next level, right associativity).
Notation "m ;;; k" := (bind m (fun _ => k)) (at level 61, right associativity).

Definition emit (e : DetEvent) : Rec unit :=
  fun s => (Ok tt, {| det := det s; events := events s ++ [e]; actions := actions s |}).
Definition perform (a : Action) : Rec unit :=
  fun s => (Ok tt, {| det := det s; events := events s; actions := actions s ++ [a] |}).
Definition modify_det (f : GlitchDetector -> GlitchDetector) : Rec unit :=
  fun s => (Ok tt, {| det := f (det s); events := events s; actions := actions s |}).

(** [await this.sleep(ms)]: other callbacks run, then execution resumes. *)
Definition sleep (ms : Z) (during : GlitchDetector -> GlitchDetector) : Rec unit :=
  perform (Sleep ms) ;;; modify_det during.

(** [this.checkGlitchState()] called from inside the recovery. *)
Definition check (cfg : DConfig) (now : Z) : Rec bool :=
  fun s => let '(g, d', evs) := checkGlitchState cfg now (det s) in
           (Ok g, {| det := d'; events := events s ++ evs; actions := actions s |}).

(** JS truthiness of an environment variable, and [a || b] on them. *)
Definition truthy (v : option string) : bool :=
  match v with Some (String _ _) => true | _ => false end.
Definition js_or (a b : option string) : option string :=
  if truthy a then a else b.

(** [execSync(...)]: performs the command, throws when it fails. *)
Definition execSync (env : RecEnv) (session : string) : Rec unit :=
  perform (ScreenStuff session) ;;;
  if execSync_throws env then throw else ret tt.

(** [process.stdout.write('\x1b[3J')]. *)
Definition stdout_write_clear (env : RecEnv) : Rec unit :=
  perform WriteClearScrollback ;;;
  if stdout_write_throws env then throw else ret tt.

(** The body of the [try] block; [Some b] is an early [return b]. *)
Definition method1 (cfg : DConfig) (env : RecEnv) : Rec (option bool) :=
  let screenSession := js_or (env_STY env) (env_SPECMEM_SCREEN_SESSION env) in
  match screenSession with
  | Some session =>
      if truthy screenSession then
        execSync env session ;;;
        sleep (recoveryDelayMs cfg) (during_sleep1 env) ;;;
        g <- check cfg (resume1 env) ;;
        if negb g then emit (RecoverySuccess "screen") ;;; ret (Some true)
        else ret None
      else ret None
  | None => ret None
  end.

Definition method2 (cfg : DConfig) (env : RecEnv) : Rec bool :=
  (if stdout_isTTY env then stdout_write_clear env else ret tt) ;;;
  sleep (recoveryDelayMs cfg) (during_sleep2 env) ;;;
  g <- check cfg (resume2 env) ;;
  if negb g then emit (RecoverySuccess "scrollback-clear") ;;; ret true
  else emit RecoveryFailed ;;; ret false.

Definition recovery_body (cfg : DConfig) (env : RecEnv) : Rec bool :=
  modify_det (fun d => with_metrics (bump_recoveries (metrics d)) d) ;;;
  emit RecoveryStarted ;;;
  try_catch
    (r <- method1 cfg env ;;
     match r with
     | Some b => ret b
     | None => method2 cfg env
     end)
    (emit RecoveryError ;;; ret false).

(** [attemptRecovery()]: how the promise settles ([Ok b] resolves with
    [b], [Thrown] rejects), the final detector, the emitted events and the
    external actions, in order. *)
Definition attemptRecovery (cfg : DConfig) (env : RecEnv) (d : GlitchDetector)
  : Outcome bool * GlitchDetector * list DetEvent * list Action :=
  if negb (isGlitched d) then (Ok false, d, [], [])
  else
    let '(o, s) := recovery_body cfg env {| det := d; events := []; actions := [] |} in
    (o, det s, events s, actions s).

End Recovery.

(* ------------------------------------------------------------------ *)
(** ** The stdout hook (part_001, lines 44-66 and 152-228) *)

Module Supervisor.
Import Detector.

Record Config := {
  resizeDebounceMs : Z;
  periodicClearMs : Z;
  clearAfterRenders : Z;
  typingCooldownMs : Z;
  maxLineCount : Z;
  glitchRecoveryEnabled : bool
}.

Definition config : Config := {|
  resizeDebounceMs := 150; periodicClearMs := 60000; clearAfterRenders := 500;
  typingCooldownMs := 500; maxLineCount := 120; glitchRecoveryEnabled := true |}.

(** The module-level [let]s the hook reads and writes, and the shared
    detector singleton ([glitchDetector], [None] when it failed to load).
    [recoveryTasks] counts the [setImmediate] recovery callbacks queued. *)
Record State := {
  renderCount : Z;
  lineCount : Z;
  lastTypingTime : Z;
  glitchRecoveryInProgress : bool;
  glitchDetector : option GlitchDetector;
  recoveryTasks : nat
}.

(** What [process.stdout.write] receives: a string or a Buffer. *)
Inductive Chunk :=
| StrChunk (s : jsstr)
| BufChunk (bytes : list Z).

(** [isTypingActive()] *)
Definition isTypingActive (cfg : Config) (now : Z) (st : State) : bool :=
  now - lastTypingTime st <? typingCooldownMs cfg.

Definition CONVERSATION_CLEARED : jsstr := js "Conversation cleared".
Definition CHAT_CLEARED : jsstr := js "Chat cleared".

(** The replacement [process.stdout.write = function(chunk, ...)] at time
    [now]: the chunk handed to [originalWrite] and the new state. *)
Definition hook (cfg : Config) (now : Z) (st : State) (c : Chunk) : Chunk * State :=
  match c with
  | BufChunk b => (BufChunk b, st)
  | StrChunk chunk =>
    if isStdinEcho chunk then
      (StrChunk chunk,
       {| renderCount := renderCount st; lineCount := lineCount st;
          lastTypingTime := now;
          glitchRecoveryInProgress := glitchRecoveryInProgress st;
          glitchDetector := glitchDetector st; recoveryTasks := recoveryTasks st |})
    else
      let renderCount1 := renderCount st + 1 in
      let det1 := option_map (trackStdout now) (glitchDetector st) in
      (* count lines so we can cap at 120 *)
      let lineCount1 := lineCount st + count_nl chunk in
      let '(lineCount2, chunk2) :=
        if maxLineCount cfg <? lineCount1
        then (0, FORCED_TRIM ++ chunk) else (lineCount1, chunk) in
      (* ink clears screen before re-render *)
      let '(lineCount3, renderCount3, chunk3) :=
        if includes chunk2 CLEAR_SCREEN || includes chunk2 HOME_CURSOR then
          if (0 <? clearAfterRenders cfg) && (clearAfterRenders cfg <=? renderCount1) then
            if negb (isTypingActive cfg now st)
            then (0, 0, CLEAR_SCROLLBACK ++ chunk2)
            else (0, renderCount1, chunk2)
          else (0, renderCount1, chunk2)
        else (lineCount2, renderCount1, chunk2) in
      (* /clear should actually clear everything *)
      let '(lineCount4, chunk4) :=
        if includes chunk3 CONVERSATION_CLEARED || includes chunk3 CHAT_CLEARED
        then (0, CLEAR_SCROLLBACK ++ chunk3) else (lineCount3, chunk3) in
      (* glitched? try to recover *)
      match det1 with
      | Some d =>
        if glitchRecoveryEnabled cfg && negb (glitchRecoveryInProgress st)
           && isInGlitchState d then
          (StrChunk (FORCED_TRIM ++ chunk4),
           {| renderCount := 0; lineCount := 0; lastTypingTime := lastTypingTime st;
              glitchRecoveryInProgress := true; glitchDetector := det1;
              recoveryTasks := S (recoveryTasks st) |})
        else
          (StrChunk chunk4,
           {| renderCount := renderCount3; lineCount := lineCount4;
              lastTypingTime := lastTypingTime st;
              glitchRecoveryInProgress := glitchRecoveryInProgress st;
              glitchDetector := det1; recoveryTasks := recoveryTasks st |})
      | None =>
          (StrChunk chunk4,
           {| renderCount := renderCount3; lineCount := lineCount4;
              lastTypingTime := lastTypingTime st;
              glitchRecoveryInProgress := glitchRecoveryInProgress st;
              glitchDetector := det1; recoveryTasks := recoveryTasks st |})
      end
  end.

End Supervisor.

(* ------------------------------------------------------------------ *)
(** ** Resize debounce (part_001, lines 266-300)

    [lastResizeTime] is the module variable; [pending] is the timer armed
    by [setTimeout] and not yet fired or cancelled, as its due time.
    An invocation of the callbacks ([sigwinchHandlers.forEach]) is
    recorded as the time at which it happens. *)

Module Debounce.

Record Deb := { lastResizeTime : Z; pending : option Z }.

Definition init : Deb := {| lastResizeTime := 0; pending := None |}.

(** [debouncedSigwinch()] at time [now], with [config.resizeDebounceMs = W]:
    the new state and the invocations made synchronously. *)
Definition debouncedSigwinch (W now : Z) (d : Deb) : Deb * list Z :=
  let timeSince := now - lastResizeTime d in
  (* lastResizeTime = now; if (resizeTimeout) clearTimeout(resizeTimeout) *)
  if timeSince <? W
  then ({| lastResizeTime := now; pending := Some (now + W) |}, [])
  else ({| lastResizeTime := now; pending := None |}, [now]).

(** The event loop on a stream of SIGWINCH arrival times: a pending timer
    whose due time is reached before (or at) the next signal fires first;
    after the last signal the pending timer, if any, fires. *)
Fixpoint run (W : Z) (ts : list Z) (d : Deb) : list Z :=
  match ts with
  | [] => match pending d with Some due => [due] | None => [] end
  | t :: rest =>
    let '(fired, d1) :=
      match pending d with
      | Some due =>
          if due <=? t
          then ([due], {| lastResizeTime := lastResizeTime d; pending := None |})
          else ([], d)
      | None => ([], d)
      end in
    let '(d2, now_calls) := debouncedSigwinch W t d1 in
    fired ++ now_calls ++ run W rest d2
  end.

(** Consecutive arrivals closer together than [W]. *)
Fixpoint gaps_below (W : Z) (t : Z) (ts : list Z) : Prop :=
  match ts with
  | [] => True
  | t' :: rest => t' - t < W /\ gaps_below W t' rest
  end.

End Debounce.

(* ------------------------------------------------------------------ *)
(** ** [install()] and [disable()] (part_001, lines 137-264 and 367-372)

    Only the process-wide hooks and timers are tracked here.  Entry points
    are tagged by what is currently installed in them. *)

Module Lifecycle.

Inductive WriteImpl := NativeWrite | HookedWrite.
(** [process.on]: the native function under a stack of wrappers. *)
Inductive OnWrapper := DebounceWrapper | DetectorWrapper.

Record Sys := {
  installed : bool;
  originalWrite : option WriteImpl;
  stdout_write : WriteImpl;
  process_on : list OnWrapper;
  clearIntervalId : bool;          (* the periodic clear interval is armed *)
  detectorCheckInterval : bool;    (* glitchDetector.checkInterval is armed *)
  detectorInstalled : bool;
  resizeTimeout : bool             (* a debounced resize timer is pending *)
}.

Definition boot : Sys := {|
  installed := false; originalWrite := None; stdout_write := NativeWrite;
  process_on := []; clearIntervalId := false; detectorCheckInterval := false;
  detectorInstalled := false; resizeTimeout := false |}.

(** [install()] with [config.disabled], [config.periodicClearMs] and whether
    the optional detector loaded. *)
Definition install (disabled : bool) (periodicClearMs : Z) (hasDetector : bool)
    (s : Sys) : Sys :=
  if installed s || disabled then s
  else
    let on1 := DebounceWrapper :: process_on s in
    let det_now := hasDetector && negb (detectorInstalled s) in
    {| installed := true;
       originalWrite := Some (stdout_write s);
       stdout_write := HookedWrite;
       process_on := if det_now then DetectorWrapper :: on1 else on1;
       clearIntervalId := (0 <? periodicClearMs) || clearIntervalId s;
       detectorCheckInterval := det_now || detectorCheckInterval s;
       detectorInstalled := hasDetector || detectorInstalled s;
       resizeTimeout := resizeTimeout s |}.

(** A burst SIGWINCH arms the debounce timer. *)
Definition sigwinch_burst (s : Sys) : Sys :=
  {| installed := installed s; originalWrite := originalWrite s;
     stdout_write := stdout_write s; process_on := process_on s;
     clearIntervalId := clearIntervalId s;
     detectorCheckInterval := detectorCheckInterval s;
     detectorInstalled := detectorInstalled s; resizeTimeout := true |}.

(** [disable()] *)
Definition disable (s : Sys) : Sys :=
  match originalWrite s with
  | Some w =>
    {| installed := installed s; originalWrite := originalWrite s;
       stdout_write := w; process_on := process_on s;
       clearIntervalId := clearIntervalId s;
       detectorCheckInterval := detectorCheckInterval s;
       detectorInstalled := detectorInstalled s; resizeTimeout := resizeTimeout s |}
  | None => s
  end.

End Lifecycle.

(* ------------------------------------------------------------------ *)
(** ** [safeClearScrollback()] and the periodic clear (part_001, lines
    106-131 and 233-240)

    [deferred] holds the due times of the [setTimeout] callbacks armed by
    the deferral and not yet run; [immediates] the texts of the
    [setImmediate] callbacks queued and not yet run; [written] what those
    callbacks handed to [originalWrite].  The typing timestamp is read
    from the supervisor [State]. *)

Module SafeClear.
Import Supervisor.

Record SC := {
  pendingClear : bool;
  deferred : list Z;
  immediates : list jsstr;
  written : list jsstr
}.

Definition sc_init : SC :=
  {| pendingClear := false; deferred := []; immediates := []; written := [] |}.

(** [safeClearScrollback()] at time [now]; [hasOriginalWrite] is the
    truthiness of [originalWrite], [isTTY] that of [process.stdout.isTTY]. *)
Definition safeClearScrollback (cfg : Config) (now : Z) (st : State)
    (hasOriginalWrite isTTY : bool) (sc : SC) : SC :=
  if isTypingActive cfg now st then
    if negb (pendingClear sc) then
      {| pendingClear := true;
         deferred := deferred sc ++ [now + typingCooldownMs cfg];
         immediates := immediates sc; written := written sc |}
    else sc
  else if hasOriginalWrite && isTTY then
    {| pendingClear := pendingClear sc; deferred := deferred sc;
       immediates := immediates sc ++ [FORCED_TRIM]; written := written sc |}
  else sc.

(** The deferred [setTimeout] callback (the first one armed) runs at [now]:
    [pendingClear = false; if (!isTypingActive()) safeClearScrollback();]. *)
Definition deferredFire (cfg : Config) (now : Z) (st : State)
    (hasOriginalWrite isTTY : bool) (sc : SC) : SC :=
  let sc1 := {| pendingClear := false; deferred := tl (deferred sc);
                immediates := immediates sc; written := written sc |} in
  if negb (isTypingActive cfg now st)
  then safeClearScrollback cfg now st hasOriginalWrite isTTY sc1
  else sc1.

(** The first queued [setImmediate] callback runs:
    [originalWrite(CURSOR_SAVE + CLEAR_SCROLLBACK + CURSOR_RESTORE)]. *)
Definition runImmediate (sc : SC) : SC :=
  match immediates sc with
  | w :: rest =>
      {| pendingClear := pendingClear sc; deferred := deferred sc;
         immediates := rest; written := written sc ++ [w] |}
  | [] => sc
  end.

(** The event loop: periodic ticks of the interval (which call
    [safeClearScrollback()]), deferred timers, and immediates, in any order
    and with any typing state. *)
Inductive sc_reachable (cfg : Config) : SC -> Prop :=
| sc_start : sc_reachable cfg sc_init
| sc_tick now st o t sc : sc_reachable cfg sc ->
    sc_reachable cfg (safeClearScrollback cfg now st o t sc)
| sc_fire now st o t sc : sc_reachable cfg sc -> deferred sc <> [] ->
    sc_reachable cfg (deferredFire cfg now st o t sc)
| sc_immediate sc : sc_reachable cfg sc -> immediates sc <> [] ->
    sc_reachable cfg (runImmediate sc).

End SafeClear.

(* ------------------------------------------------------------------ *)
(** ** Earlier versions of the stdout hook, and the PTY wrapper

    [hook_v1]: [src/index.cjs], lines 59-80 (v1.0.0, state [renderCount]).
    [hook_v101]: [src/unnamed/part_000], lines 133-167 (v1.0.1, whose
    [isStdinEcho], lines 66-84, is the one of v2 above).
    [processOutput]: [src/bin/claude-fixed.js], lines 75-114, on the
    string data of the pseudo-terminal.  The configuration fields they read
    are those of [Supervisor.Config]. *)

Module Legacy.
Import Supervisor.

Definition hook_v1 (cfg : Config) (rc : Z) (c : Chunk) : Chunk * Z :=
  match c with
  | BufChunk b => (BufChunk b, rc)
  | StrChunk chunk =>
    let rc1 := rc + 1 in
    let '(rc2, chunk2) :=
      if includes chunk CLEAR_SCREEN || includes chunk HOME_CURSOR then
        if (0 <? clearAfterRenders cfg) && (clearAfterRenders cfg <=? rc1)
        then (0, CLEAR_SCROLLBACK ++ chunk) else (rc1, chunk)
      else (rc1, chunk) in
    let chunk3 :=
      if includes chunk2 CONVERSATION_CLEARED || includes chunk2 CHAT_CLEARED
      then CLEAR_SCROLLBACK ++ chunk2 else chunk2 in
    (StrChunk chunk3, rc2)
  end.

Record State101 := { renderCount101 : Z; lastTypingTime101 : Z }.

Definition hook_v101 (cfg : Config) (now : Z) (st : State101) (c : Chunk)
  : Chunk * State101 :=
  match c with
  | BufChunk b => (BufChunk b, st)
  | StrChunk chunk =>
    if isStdinEcho chunk then
      (StrChunk chunk, {| renderCount101 := renderCount101 st; lastTypingTime101 := now |})
    else
      let rc1 := renderCount101 st + 1 in
      let '(rc2, chunk2) :=
        if includes chunk CLEAR_SCREEN || includes chunk HOME_CURSOR then
          if (0 <? clearAfterRenders cfg) && (clearAfterRenders cfg <=? rc1) then
            if negb (now - lastTypingTime101 st <? typingCooldownMs cfg)
            then (0, CLEAR_SCROLLBACK ++ chunk) else (rc1, chunk)
          else (rc1, chunk)
        else (rc1, chunk) in
      let chunk3 :=
        if includes chunk2 CONVERSATION_CLEARED || includes chunk2 CHAT_CLEARED
        then CLEAR_SCROLLBACK ++ chunk2 else chunk2 in
      (StrChunk chunk3, {| renderCount101 := rc2; lastTypingTime101 := lastTypingTime101 st |})
  end.

Record PState := { p_renderCount : Z; p_lineCount : Z; p_lastTypingTime : Z }.

(** [processOutput(chunk)] with [config.disabled = disabled]; [str] is the
    chunk itself. *)
Definition processOutput (disabled : bool) (cfg : Config) (now : Z) (ps : PState)
    (chunk : jsstr) : jsstr * PState :=
  if disabled then (chunk, ps)
  else
    let str := chunk in
    let rc1 := p_renderCount ps + 1 in
    let lc1 := p_lineCount ps + count_nl str in
    let '(lc2, out2) :=
      if maxLineCount cfg <? lc1 then (0, FORCED_TRIM ++ chunk) else (lc1, chunk) in
    let '(lc3, rc3, out3) :=
      if includes str CLEAR_SCREEN || includes str HOME_CURSOR then
        if (0 <? clearAfterRenders cfg) && (clearAfterRenders cfg <=? rc1) then
          if negb (now - p_lastTypingTime ps <? typingCooldownMs cfg)
          then (0, 0, CLEAR_SCROLLBACK ++ out2)
          else (0, rc1, out2)
        else (0, rc1, out2)
      else (lc2, rc1, out2) in
    let '(lc4, out4) :=
      if includes str CONVERSATION_CLEARED || includes str CHAT_CLEARED
      then (0, CLEAR_SCROLLBACK ++ out3) else (lc3, out3) in
    (out4, {| p_renderCount := rc3; p_lineCount := lc4;
              p_lastTypingTime := p_lastTypingTime ps |}).

(** The counters of the current hook's state that the older versions keep. *)
Definition to_state101 (st : State) : State101 :=
  {| renderCount101 := renderCount st; lastTypingTime101 := lastTypingTime st |}.

Definition to_pstate (st : State) : PState :=
  {| p_renderCount := renderCount st; p_lineCount := lineCount st;
     p_lastTypingTime := lastTypingTime st |}.

End Legacy.

(* ------------------------------------------------------------------ *)
(** ** [clearScrollback()] (part_001, lines 305-312), the detector's own
    [install()] and [disable()] (glitch-detector.cjs, lines 68-97 and
    327-334), and the SIGWINCH delivery through [process.on] wrappers *)

Module LifecycleExt.
Import Lifecycle.

(** The write [clearScrollback()] goes through:
    [originalWrite] when set, [process.stdout.write] otherwise. *)
Definition clearScrollback (s : Sys) : WriteImpl :=
  match originalWrite s with
  | Some w => w
  | None => stdout_write s
  end.

(** [GlitchDetector.install()]: a no-op when installed; otherwise wraps
    [process.on] and arms the check interval. *)
Definition detector_install (s : Sys) : Sys :=
  if detectorInstalled s then s
  else
    {| installed := installed s; originalWrite := originalWrite s;
       stdout_write := stdout_write s; process_on := DetectorWrapper :: process_on s;
       clearIntervalId := clearIntervalId s; detectorCheckInterval := true;
       detectorInstalled := true; resizeTimeout := resizeTimeout s |}.

(** [GlitchDetector.disable()]: clears the interval, [installed = false]. *)
Definition detector_disable (s : Sys) : Sys :=
  {| installed := installed s; originalWrite := originalWrite s;
     stdout_write := stdout_write s; process_on := process_on s;
     clearIntervalId := clearIntervalId s; detectorCheckInterval := false;
     detectorInstalled := false; resizeTimeout := resizeTimeout s |}.

(** How many detector wrappers a SIGWINCH [handler] registered through the
    [process.on] stack [ws] (outermost first) gets: each detector wrapper
    passes [(...args) => { this.onSigwinch(); handler(...args); }] to the
    [process.on] it saved; the resize debounce's [process.on] stores what it
    receives in [sigwinchHandlers] and wraps no further (the native
    [process.on] registers it as is). *)
Fixpoint handler_detector_wraps (ws : list OnWrapper) : nat :=
  match ws with
  | DetectorWrapper :: rest => S (handler_detector_wraps rest)
  | DebounceWrapper :: _ => O
  | [] => O
  end.

(** One call at [now] of the closure so registered, whoever makes it
    ([debouncedSigwinch], at once or from its timer, or the native
    emitter): each detector layer runs [this.onSigwinch()] before calling
    the next, all within one synchronous run. *)
Definition invoke_handler (cfg : Detector.DConfig) (now : Z) (ws : list OnWrapper)
    (d : Detector.GlitchDetector) : Detector.GlitchDetector :=
  Nat.iter (handler_detector_wraps ws) (Detector.onSigwinch cfg now) d.

(** States of the process hooks reachable from start-up. *)
Inductive sys_reachable : Sys -> Prop :=
| sys_boot : sys_reachable boot
| sys_install dis p h s : sys_reachable s -> sys_reachable (install dis p h s)
| sys_disable s : sys_reachable s -> sys_reachable (disable s)
| sys_burst s : sys_reachable s -> sys_reachable (sigwinch_burst s)
| sys_det_install s : sys_reachable s -> sys_reachable (detector_install s)
| sys_det_disable s : sys_reachable s -> sys_reachable (detector_disable s).

End LifecycleExt.

(* ------------------------------------------------------------------ *)
(** ** [getGlitchDuration()] (glitch-detector.cjs, lines 231-234) and
    [forceRecovery()] (part_001, lines 337-345) *)

Module DetectorExt.
Import Detector Recovery.

(** [if (!this.isGlitched || !this.glitchStartTime) return 0;]: a start
    time of [0] is falsy as well. *)
Definition getGlitchDuration (now : Z) (d : GlitchDetector) : Z :=
  if negb (isGlitched d) then 0
  else match glitchStartTime d with
       | Some t => if t =? 0 then 0 else now - t
       | None => 0
       end.

(** [forceRecovery()] over the singleton [glitchDetector] ([None] when the
    detector did not load); without it, [clearScrollback()] writes
    ['\x1b[3J'] and [true] is returned. *)
Definition forceRecovery (cfg : DConfig) (env : RecEnv) (det : option GlitchDetector)
  : Outcome bool * option GlitchDetector * list DetEvent * list Action :=
  match det with
  | Some d =>
      let '(o, d', evs, acts) := attemptRecovery cfg env d in (o, Some d', evs, acts)
  | None =>
      (if stdout_write_throws env then Thrown else Ok true, None, [],
       [WriteClearScrollback])
  end.

(** A series of [trackStdout()] calls at the times [ts]. *)
Definition track_all (ts : list Z) (d : GlitchDetector) : GlitchDetector :=
  fold_left (fun d t => trackStdout t d) ts d.

(** One step of a detector: the operations of [reachable]. *)
Inductive det_step (cfg : DConfig) : GlitchDetector -> GlitchDetector -> Prop :=
| step_check now d : det_step cfg d (let '(_, d', _) := checkGlitchState cfg now d in d')
| step_track now d : det_step cfg d (trackStdout now d)
| step_sigwinch now d : det_step cfg d (onSigwinch cfg now d)
| step_decay d : det_step cfg d (sigwinchDecay d)
| step_stdin now d : det_step cfg d (stdinData now d)
| step_recovery d : det_step cfg d (with_metrics (bump_recoveries (metrics d)) d)
| step_reset now d : det_step cfg d (reset now d).

(** Sample times in nondecreasing order (each at most every later one). *)
Fixpoint nondecreasing (ts : list Z) : bool :=
  match ts with
  | [] => true
  | t :: rest => forallb (fun t' => t <=? t') rest && nondecreasing rest
  end.

Definition metrics_le (m m' : Metrics) : Prop :=
  glitchesDetected m <= glitchesDetected m' /\
  recoveriesAttempted m <= recoveriesAttempted m' /\
  stdinSilenceEvents m <= stdinSilenceEvents m' /\
  sigwinchStorms m <= sigwinchStorms m' /\
  renderSpikes m <= renderSpikes m'.

End DetectorExt.

(* ------------------------------------------------------------------ *)
(** ** The stdout hook in its event loop (part_001, lines 146-150 and
    203-224)

    Besides string and Buffer writes: keystrokes ([process.stdin.on('data')]),
    the detector's own timers and listeners (any new detector state), and
    the completion of a queued recovery task, which ends with
    [glitchRecoveryInProgress = false] whatever the recovery did to the
    detector. *)

Module SupervisorRun.
Import Supervisor.

Definition st_init (det : option Detector.GlitchDetector) : State :=
  {| renderCount := 0; lineCount := 0; lastTypingTime := 0;
     glitchRecoveryInProgress := false; glitchDetector := det; recoveryTasks := 0 |}.

Inductive sup_reachable (cfg : Config) : State -> Prop :=
| sup_start det : sup_reachable cfg (st_init det)
| sup_write now c st : sup_reachable cfg st -> sup_reachable cfg (snd (hook cfg now st c))
| sup_stdin now st : sup_reachable cfg st ->
    sup_reachable cfg
      {| renderCount := renderCount st; lineCount := lineCount st; lastTypingTime := now;
         glitchRecoveryInProgress := glitchRecoveryInProgress st;
         glitchDetector := glitchDetector st; recoveryTasks := recoveryTasks st |}
| sup_detector (d' : Detector.GlitchDetector) st : sup_reachable cfg st ->
    sup_reachable cfg
      {| renderCount := renderCount st; lineCount := lineCount st;
         lastTypingTime := lastTypingTime st;
         glitchRecoveryInProgress := glitchRecoveryInProgress st;
         glitchDetector := option_map (fun _ => d') (glitchDetector st);
         recoveryTasks := recoveryTasks st |}
| sup_recovery_done (d' : Detector.GlitchDetector) st : sup_reachable cfg st -> (0 < recoveryTasks st)%nat ->
    sup_reachable cfg
      {| renderCount := renderCount st; lineCount := lineCount st;
         lastTypingTime := lastTypingTime st; glitchRecoveryInProgress := false;
         glitchDetector := option_map (fun _ => d') (glitchDetector st);
         recoveryTasks := pred (recoveryTasks st) |}.

End SupervisorRun.

(* ------------------------------------------------------------------ *)
(** ** [setConfig(key, value)] (part_001, lines 357-362)

    The [config] object: its own properties in creation order, and the
    names [key in config] finds through its prototype chain
    ([Object.prototype]'s at creation).  An object value is described by
    the names [in] finds on it, own or inherited. *)

Module ConfigObj.

Inductive JSVal :=
| JNum (n : Z) | JBool (b : bool) | JStr (s : string) | JUndefined | JNull
| JObj (names : list string).

Definition Props := list (string * JSVal).

Record JSObj := { props : Props; proto_names : list string }.

Definition object_prototype_keys : list string :=
  ["constructor"; "__defineGetter__"; "__defineSetter__"; "hasOwnProperty";
   "__lookupGetter__"; "__lookupSetter__"; "isPrototypeOf";
   "propertyIsEnumerable"; "toString"; "valueOf"; "__proto__";
   "toLocaleString"]%string.

Definition config_obj (debug disabled : bool) : JSObj := {|
  props :=
    [("resizeDebounceMs", JNum 150); ("periodicClearMs", JNum 60000);
     ("clearAfterRenders", JNum 500); ("typingCooldownMs", JNum 500);
     ("maxLineCount", JNum 120); ("glitchRecoveryEnabled", JBool true);
     ("debug", JBool debug); ("disabled", JBool disabled)]%string;
  proto_names := object_prototype_keys |}.








End ConfigObj.

(* ================================================================== *)
(** * Properties *)

Import Supervisor.

(** Small executions of the models. *)
Example echo_letter : isStdinEcho (js "a") = true.
Proof. reflexivity. Qed.
Example echo_arrow : isStdinEcho (ESC :: js "[A") = true.
Proof. reflexivity. Qed.
Example echo_not_erase : isStdinEcho CLEAR_SCREEN = false.
Proof. reflexivity. Qed.
Example nl_count : count_nl (js "ab" ++ [10] ++ js "c" ++ [13; 10]) = 2.
Proof. reflexivity. Qed.
Example marker_found : includes (js "ok: Chat cleared.") CHAT_CLEARED = true.
Proof. reflexivity. Qed.

(** ** String lemmas *)

Lemma startsWith_nil (s : jsstr) : startsWith s [] = true.
Proof. destruct s; reflexivity. Qed.

Lemma includes_single (s : jsstr) (c : Z) : includes s [c] = true <-> In c s.
Proof.
  induction s as [|x s IH]; simpl.
  - split; [discriminate | tauto].
  - rewrite startsWith_nil, orb_true_iff, andb_true_r, Z.eqb_eq, IH.
    intuition congruence.
Qed.

Lemma startsWith_length (s p : jsstr) :
  startsWith s p = true -> (List.length p <= List.length s)%nat.
Proof.
  revert s; induction p as [|x p IH]; intros [|y s] H; simpl in *;
    try discriminate; try lia.
  apply andb_true_iff in H as [_ H]. apply IH in H. lia.
Qed.

Lemma includes_length (s p : jsstr) :
  includes s p = true -> (List.length p <= List.length s)%nat.
Proof.
  induction s as [|x s IH]; intros H; change (includes ?s0 p) with
    (startsWith s0 p || match s0 with [] => false | _ :: s' => includes s' p end) in H;
    apply orb_true_iff in H as [H|H].
  - now apply startsWith_length in H.
  - discriminate.
  - now apply startsWith_length in H.
  - apply IH in H. simpl. lia.
Qed.

Lemma includes_app_l (a s p : jsstr) :
  includes s p = true -> includes (a ++ s) p = true.
Proof.
  induction a as [|x a IH]; simpl; intros H; [exact H|].
  rewrite IH by exact H. apply orb_true_r.
Qed.

(** [isStdinEcho] as the disjunction of its four tests. *)
Lemma isStdinEcho_spec (chunk : jsstr) :
  isStdinEcho chunk =
  ((len chunk =? 1) && (32 <=? charCodeAt0 chunk) && (charCodeAt0 chunk <=? 126))
  || ((len chunk <=? 4) && (includes chunk [8] || includes chunk [127]))
  || ((len chunk <=? 6) && startsWith chunk [ESC; 91]
      && negb (includes chunk (js "J")) && negb (includes chunk (js "H")))
  || (if list_eq_dec Z.eq_dec chunk [10] then true
      else if list_eq_dec Z.eq_dec chunk [13] then true
      else if list_eq_dec Z.eq_dec chunk [13; 10] then true else false).
Proof.
  unfold isStdinEcho.
  destruct (_ && _ && _); [reflexivity|].
  destruct (_ && _); [reflexivity|].
  destruct (_ && _ && _ && _); reflexivity.
Qed.

(** A chunk longer than six units is never an echo. *)
Lemma isStdinEcho_long (chunk : jsstr) :
  (7 <= List.length chunk)%nat -> isStdinEcho chunk = false.
Proof.
  intros H. rewrite isStdinEcho_spec. unfold len.
  assert (E1 : (Z.of_nat (List.length chunk) =? 1) = false) by (apply Z.eqb_neq; lia).
  assert (E4 : (Z.of_nat (List.length chunk) <=? 4) = false) by (apply Z.leb_gt; lia).
  assert (E6 : (Z.of_nat (List.length chunk) <=? 6) = false) by (apply Z.leb_gt; lia).
  rewrite E1, E4, E6. simpl.
  destruct (list_eq_dec Z.eq_dec chunk [10]) as [->|]; [simpl in H; lia|].
  destruct (list_eq_dec Z.eq_dec chunk [13]) as [->|]; [simpl in H; lia|].
  destruct (list_eq_dec Z.eq_dec chunk [13; 10]) as [->|]; [simpl in H; lia|].
  reflexivity.
Qed.

(** The keystroke-echo shapes, in the words of the specification:
    a single printable ASCII character; at most 4 units with a backspace or
    delete; at most 6 units starting with the CSI introducer [ESC [] and
    without an erase-display ['J'] or cursor-home ['H'] byte; or exactly
    a line ending. *)
Definition echo_shape (s : jsstr) : Prop :=
  (exists c, s = [c] /\ 32 <= c <= 126)
  \/ ((List.length s <= 4)%nat /\ (In 8 s \/ In 127 s))
  \/ ((List.length s <= 6)%nat /\ (exists rest, s = ESC :: 91 :: rest)
      /\ ~ In 74 s /\ ~ In 72 s)
  \/ s = [10] \/ s = [13] \/ s = [13; 10].

Lemma echo_shape_isStdinEcho (s : jsstr) : echo_shape s -> isStdinEcho s = true.
Proof.
  intros Hs. rewrite isStdinEcho_spec.
  destruct Hs as [[c [-> Hc]] | [[Hl Hin] | [[Hl [[rest ->] [HJ HH]]] | [-> | [-> | ->]]]]].
  - simpl. unfold len; simpl.
    replace (32 <=? c) with true by (symmetry; apply Z.leb_le; lia).
    replace (c <=? 126) with true by (symmetry; apply Z.leb_le; lia).
    reflexivity.
  - assert (E : (len s <=? 4) = true) by (unfold len; apply Z.leb_le; lia).
    assert (E' : (includes s [8] || includes s [127]) = true).
    { apply orb_true_iff. rewrite !includes_single. exact Hin. }
    apply orb_true_iff; left; apply orb_true_iff; left; apply orb_true_iff; right.
    rewrite E, E'. reflexivity.
  - assert (E : (len (ESC :: 91 :: rest) <=? 6) = true) by (unfold len; apply Z.leb_le; lia).
    assert (EJ : includes (ESC :: 91 :: rest) (js "J") = false).
    { apply not_true_iff_false. change (js "J") with [74]. rewrite includes_single. exact HJ. }
    assert (EH : includes (ESC :: 91 :: rest) (js "H") = false).
    { apply not_true_iff_false. change (js "H") with [72]. rewrite includes_single. exact HH. }
    apply orb_true_iff; left; apply orb_true_iff; right.
    rewrite E, EJ, EH. simpl. rewrite startsWith_nil. reflexivity.
  - reflexivity.
  - reflexivity.
  - reflexivity.
Qed.

(** ** C10 *)

(** C10: a chunk that is not a string (a Buffer) is handed to the original
    write unmodified and no bookkeeping happens: the whole state
    (renderCount, lineCount, the typing timestamp, the detector and its
    output samples, the recovery flag) is left as it was. *)
Theorem C10_nonstring_passthrough (cfg : Config) (now : Z) (st : State)
    (bytes : list Z) :
  hook cfg now st (BufChunk bytes) = (BufChunk bytes, st).
Proof. reflexivity. Qed.

(** ** C1 *)

(** C1: every string chunk of a keystroke-echo shape is returned
    byte-identical; renderCount and lineCount are unchanged and the only
    state change is the last-typing timestamp. *)
Theorem C1_echo_passthrough (cfg : Config) (now : Z) (st : State) (s : jsstr)
    (Hs : echo_shape s) :
  hook cfg now st (StrChunk s) =
  (StrChunk s,
   {| renderCount := renderCount st; lineCount := lineCount st;
      lastTypingTime := now;
      glitchRecoveryInProgress := glitchRecoveryInProgress st;
      glitchDetector := glitchDetector st; recoveryTasks := recoveryTasks st |}).
Proof.
  unfold hook. rewrite (echo_shape_isStdinEcho s Hs). reflexivity.
Qed.

Definition st_demo : State := {|
  renderCount := 499; lineCount := 120; lastTypingTime := 0;
  glitchRecoveryInProgress := false; glitchDetector := None; recoveryTasks := 0 |}.

Lemma C1_witness :
  echo_shape (js "a") /\
  hook config 1000 st_demo (StrChunk (js "a")) =
  (StrChunk (js "a"),
   {| renderCount := 499; lineCount := 120; lastTypingTime := 1000;
      glitchRecoveryInProgress := false; glitchDetector := None;
      recoveryTasks := 0 |}).
Proof.
  assert (H : echo_shape (js "a")).
  { left. exists 97. split; [reflexivity | lia]. }
  split; [exact H|].
  exact (C1_echo_passthrough config 1000 st_demo (js "a") H).
Defined.

(** ** What the hook prepends *)

(** A run of the directives the hook may prepend. *)
Inductive directives : jsstr -> Prop :=
| dirs_nil : directives []
| dirs_clear (d : jsstr) : directives d -> directives (CLEAR_SCROLLBACK ++ d)
| dirs_trim (d : jsstr) : directives d -> directives (FORCED_TRIM ++ d).

Lemma dirs_clear1 : directives CLEAR_SCROLLBACK.
Proof. rewrite <- (app_nil_r CLEAR_SCROLLBACK). apply dirs_clear, dirs_nil. Qed.
Lemma dirs_trim1 : directives FORCED_TRIM.
Proof. rewrite <- (app_nil_r FORCED_TRIM). apply dirs_trim, dirs_nil. Qed.

Ltac solve_directives :=
  repeat first [ exact dirs_nil | exact dirs_clear1 | exact dirs_trim1
               | apply dirs_clear | apply dirs_trim ].

(** [out] is [tail] with a run of directives in front of it. *)
Definition prepends (out : Chunk) (tail : jsstr) : Prop :=
  exists pre, directives pre /\ out = StrChunk (pre ++ tail).

Lemma prepends_here (t : jsstr) : prepends (StrChunk t) t.
Proof. exists []. split; [exact dirs_nil | reflexivity]. Qed.

Lemma prepends_clear (x t : jsstr) :
  prepends (StrChunk x) t -> prepends (StrChunk (CLEAR_SCROLLBACK ++ x)) t.
Proof.
  intros [pre [Hd Heq]]. injection Heq as ->.
  exists (CLEAR_SCROLLBACK ++ pre). split; [now apply dirs_clear | now rewrite app_assoc].
Qed.

Lemma prepends_trim (x t : jsstr) :
  prepends (StrChunk x) t -> prepends (StrChunk (FORCED_TRIM ++ x)) t.
Proof.
  intros [pre [Hd Heq]]. injection Heq as ->.
  exists (FORCED_TRIM ++ pre). split; [now apply dirs_trim | now rewrite app_assoc].
Qed.

Ltac solve_prepends :=
  first [ apply prepends_here
        | apply prepends_clear; solve_prepends
        | apply prepends_trim; solve_prepends ].

(** Case analysis on every test of the hook. *)
Ltac hook_cases :=
  repeat match goal with
         | |- context [if ?b then _ else _] => let E := fresh "E" in destruct b eqn:E
         | |- context [match ?o with Some _ => _ | None => _ end] =>
             let E := fresh "E" in destruct o eqn:E
         end;
  cbn [renderCount lineCount lastTypingTime glitchRecoveryInProgress
       glitchDetector recoveryTasks].

(** Marker detection survives prepended directives. *)
Ltac solve_includes := first [ assumption | apply includes_app_l; solve_includes ].

(** ** C4 *)

(** C4: for a non-echo string chunk, when lineCount plus the chunk's
    newline count exceeds maxLineCount, lineCount ends at 0 and the
    forced-trim sequence (cursor save, scrollback clear, cursor restore)
    is in front of the chunk in the output; typing activity plays no role
    (the state's typing timestamp is arbitrary). *)
Theorem C4_line_cap (cfg : Config) (now : Z) (st : State) (s : jsstr)
    (Hecho : isStdinEcho s = false)
    (Hcap : maxLineCount cfg < lineCount st + count_nl s) :
  let '(out, st') := hook cfg now st (StrChunk s) in
  lineCount st' = 0 /\ prepends out (FORCED_TRIM ++ s).
Proof.
  unfold hook. rewrite Hecho.
  replace (maxLineCount cfg <? lineCount st + count_nl s) with true
    by (symmetry; apply Z.ltb_lt; exact Hcap).
  hook_cases; split; try reflexivity; solve_prepends.
Qed.

Definition st_typing : State := {|
  renderCount := 10; lineCount := 120; lastTypingTime := 990;
  glitchRecoveryInProgress := false; glitchDetector := None; recoveryTasks := 0 |}.

Lemma C4_witness :
  isStdinEcho (js "line" ++ [10]) = false /\
  maxLineCount config < lineCount st_typing + count_nl (js "line" ++ [10]) /\
  isTypingActive config 1000 st_typing = true /\
  (let '(out, st') := hook config 1000 st_typing (StrChunk (js "line" ++ [10])) in
   lineCount st' = 0 /\ prepends out (FORCED_TRIM ++ js "line" ++ [10])).
Proof.
  split; [reflexivity|]. split; [vm_compute; reflexivity|].
  split; [reflexivity|].
  apply (C4_line_cap config 1000 st_typing (js "line" ++ [10]));
    [reflexivity | vm_compute; reflexivity].
Defined.

(** Turn the boolean tests left by [hook_cases] into propositions. *)
Ltac bool_facts :=
  repeat match goal with
         | H : (_ && _) = true |- _ => apply andb_true_iff in H as [? ?]
         | H : (_ || _) = false |- _ => apply orb_false_iff in H as [? ?]
         | H : (_ && _) = false |- _ => apply andb_false_iff in H as [H|H]
         | H : (_ || _) = true |- _ => apply orb_true_iff in H as [H|H]
         | H : negb _ = true |- _ => apply negb_true_iff in H
         | H : negb _ = false |- _ => apply negb_false_iff in H
         | H : (_ <? _) = true |- _ => apply Z.ltb_lt in H
         | H : (_ <? _) = false |- _ => apply Z.ltb_ge in H
         | H : (_ <=? _) = true |- _ => apply Z.leb_le in H
         | H : (_ <=? _) = false |- _ => apply Z.leb_gt in H
         end.

(** A marker found in [s] is found in [s] with directives in front. *)
Ltac includes_contra :=
  match goal with
  | H : includes ?X ?p = false, Hs : includes _ ?p = true |- _ =>
      let T := fresh in
      assert (T : includes X p = true) by solve_includes; congruence
  end.

(** ** C6 *)

(** C6: a string chunk containing "Conversation cleared" or "Chat cleared"
    always leaves lineCount at 0 and gets the scrollback-clear directive
    prepended, whatever the typing state: the output is the chunk with
    directives in front, one of them the scrollback clear. *)
Theorem C6_explicit_clear (cfg : Config) (now : Z) (st : State) (s : jsstr)
    (Hm : includes s CONVERSATION_CLEARED = true \/ includes s CHAT_CLEARED = true) :
  let '(out, st') := hook cfg now st (StrChunk s) in
  lineCount st' = 0 /\
  exists mid, directives mid /\ prepends out (CLEAR_SCROLLBACK ++ mid ++ s).
Proof.
  assert (Hecho : isStdinEcho s = false).
  { apply isStdinEcho_long.
    destruct Hm as [H|H]; apply includes_length in H; simpl in H; lia. }
  unfold hook. rewrite Hecho.
  hook_cases; bool_facts;
    try (destruct Hm as [Hm|Hm]; includes_contra);
    (split; [reflexivity|]);
    first [ exists []; split; [exact dirs_nil | solve_prepends]
          | exists FORCED_TRIM; split; [exact dirs_trim1 | solve_prepends]
          | exists CLEAR_SCROLLBACK; split; [exact dirs_clear1 | solve_prepends]
          | exists (CLEAR_SCROLLBACK ++ FORCED_TRIM); split;
              [solve_directives | solve_prepends] ].
Qed.

Definition st_glitch_free_typing : State := {|
  renderCount := 3; lineCount := 42; lastTypingTime := 950;
  glitchRecoveryInProgress := false; glitchDetector := None; recoveryTasks := 0 |}.

(** The scenario of the specification: a keystroke 50ms before, cooldown
    500ms, and a "Conversation cleared" chunk. *)
Lemma C6_witness :
  isTypingActive config 1000 st_glitch_free_typing = true /\
  (let '(out, st') := hook config 1000 st_glitch_free_typing
                        (StrChunk CONVERSATION_CLEARED) in
   lineCount st' = 0 /\
   exists mid, directives mid /\
     prepends out (CLEAR_SCROLLBACK ++ mid ++ CONVERSATION_CLEARED)).
Proof.
  split; [reflexivity|].
  apply (C6_explicit_clear config 1000 st_glitch_free_typing CONVERSATION_CLEARED).
  left. reflexivity.
Defined.

(** ** C5 *)

(** A Repaint chunk in the specification's classification: not an echo,
    no clear marker, and an erase-display or cursor-home sequence. *)
Definition is_repaint (s : jsstr) : Prop :=
  isStdinEcho s = false /\
  (includes s CONVERSATION_CLEARED || includes s CHAT_CLEARED) = false /\
  (includes s CLEAR_SCREEN || includes s HOME_CURSOR) = true.

(** Whether the glitch-recovery branch of the hook fires on the next string
    chunk ([trackStdout] does not change [isGlitched]). *)
Definition glitch_trim_due (cfg : Config) (st : State) : bool :=
  match glitchDetector st with
  | Some d => glitchRecoveryEnabled cfg && negb (glitchRecoveryInProgress st)
              && Detector.isGlitched d
  | None => false
  end.

(** A detector reached from construction at time 0 by one periodic check
    at time 3000: stdin silent for 3s while output is recent. *)
Definition detector_glitched : Detector.GlitchDetector :=
  let '(_, d, _) :=
    Detector.checkGlitchState Detector.DEFAULT_CONFIG 3000 (Detector.create 0) in d.

Definition st_glitched_typing : State := {|
  renderCount := 499; lineCount := 0; lastTypingTime := 3990;
  glitchRecoveryInProgress := false; glitchDetector := Some detector_glitched;
  recoveryTasks := 0 |}.

(** C5, as stated, fails: a Repaint chunk reaching the threshold while
    typing is active (keystroke 10ms before) still gets a scrollback clear
    in front and renderCount reset to 0 when the detector is glitched, since
    the glitch-recovery trim of the hook is not deferred. *)
Lemma C5_counterexample :
  Detector.isGlitched detector_glitched = true /\
  isTypingActive config 4000 st_glitched_typing = true /\
  is_repaint CLEAR_SCREEN /\
  clearAfterRenders config <= renderCount st_glitched_typing + 1 /\
  (let '(out, st') := hook config 4000 st_glitched_typing (StrChunk CLEAR_SCREEN) in
   renderCount st' = 0 /\ out = StrChunk (FORCED_TRIM ++ CLEAR_SCREEN) /\
   includes (FORCED_TRIM ++ CLEAR_SCREEN) CLEAR_SCROLLBACK = true).
Proof.
  split; [reflexivity|]. split; [reflexivity|].
  split; [split; [|split]; reflexivity|].
  split; [vm_compute; discriminate|].
  vm_compute. repeat split.
Qed.

(** The typing-active deferral and the inactive clear of a Repaint chunk. *)
Lemma repaint_deferral_core (cfg : Config) (now : Z) (st : State) (s : jsstr)
    (Hrep : is_repaint s)
    (Hth : clearAfterRenders cfg <= renderCount st + 1) :
  let '(out, st') := hook cfg now st (StrChunk s) in
  (isTypingActive cfg now st = true ->
   lineCount st + count_nl s <= maxLineCount cfg ->
   glitch_trim_due cfg st = false ->
   out = StrChunk s /\ renderCount st' = renderCount st + 1) /\
  (isTypingActive cfg now st = false -> 0 < clearAfterRenders cfg ->
   renderCount st' = 0 /\
   exists mid, directives mid /\ prepends out (CLEAR_SCROLLBACK ++ mid ++ s)).
Proof.
  destruct Hrep as [Hecho [Hmark Hscr]].
  apply orb_false_iff in Hmark as [Hm1 Hm2].
  unfold glitch_trim_due, hook. rewrite Hecho.
  destruct (glitchDetector st) as [d|] eqn:Ed;
  apply orb_true_iff in Hscr as [Hs|Hs];
  hook_cases;
  repeat match goal with
         | H : option_map _ _ = Some _ |- _ =>
             simpl in H; first [discriminate H | injection H as <-]
         end;
  cbn [Detector.isInGlitchState Detector.trackStdout Detector.isGlitched] in *;
  bool_facts; try includes_contra;
  (split; intros HA HB; [intros HC|]); bool_facts;
  try congruence; try lia;
  try (split; reflexivity);
  try (split; [reflexivity|]);
  first [ exists []; split; [exact dirs_nil | solve_prepends]
        | exists FORCED_TRIM; split; [exact dirs_trim1 | solve_prepends] ].
Qed.

(** The line cap acts whatever the typing state. *)
Lemma line_cap_prepends (cfg : Config) (now : Z) (st : State) (s : jsstr)
    (Hecho : isStdinEcho s = false)
    (Hcap : maxLineCount cfg < lineCount st + count_nl s) :
  let '(out, st') := hook cfg now st (StrChunk s) in
  lineCount st' = 0 /\ prepends out (FORCED_TRIM ++ s).
Proof.
  unfold hook. rewrite Hecho.
  replace (maxLineCount cfg <? lineCount st + count_nl s) with true
    by (symmetry; apply Z.ltb_lt; exact Hcap).
  hook_cases; split; try reflexivity; solve_prepends.
Qed.

(** While typing, the glitch-recovery trim of a Repaint chunk. *)
Lemma glitch_trim_typing (cfg : Config) (now : Z) (st : State) (s : jsstr)
    (Hrep : is_repaint s) (Hty : isTypingActive cfg now st = true)
    (Hg : glitch_trim_due cfg st = true) :
  let '(out, st') := hook cfg now st (StrChunk s) in
  renderCount st' = 0 /\ lineCount st' = 0 /\ prepends out (FORCED_TRIM ++ s).
Proof.
  destruct Hrep as [Hecho [Hmark Hscr]].
  apply orb_false_iff in Hmark as [Hm1 Hm2].
  unfold glitch_trim_due in Hg. unfold hook. rewrite Hecho, Hty.
  destruct (glitchDetector st) as [d|] eqn:Ed; [|discriminate].
  cbn [option_map Detector.isInGlitchState Detector.trackStdout Detector.isGlitched].
  rewrite Hg.
  hook_cases; bool_facts; try includes_contra;
    try discriminate; repeat split; try reflexivity; solve_prepends.
Qed.

(** C5 (amended): for a Repaint chunk with renderCount (after its
    increment) at or above the threshold,
    - while typing is active, and when neither the line cap nor the
      glitch-recovery trim fires on this chunk, the chunk is emitted
      unmodified and renderCount is incremented, not reset;
    - while typing is active, the line cap still acts (lineCount ends at 0
      and the forced trim is prepended), and so does the glitch-recovery
      trim (forced trim prepended, renderCount and lineCount at 0);
    - once typing is inactive (and the threshold is positive), a scrollback
      clear is prepended and renderCount ends at 0. *)
Theorem C5_repaint_deferral (cfg : Config) (now : Z) (st : State) (s : jsstr)
    (Hrep : is_repaint s)
    (Hth : clearAfterRenders cfg <= renderCount st + 1) :
  let '(out, st') := hook cfg now st (StrChunk s) in
  (isTypingActive cfg now st = true ->
   lineCount st + count_nl s <= maxLineCount cfg ->
   glitch_trim_due cfg st = false ->
   out = StrChunk s /\ renderCount st' = renderCount st + 1) /\
  (isTypingActive cfg now st = true ->
   maxLineCount cfg < lineCount st + count_nl s ->
   lineCount st' = 0 /\ prepends out (FORCED_TRIM ++ s)) /\
  (isTypingActive cfg now st = true -> glitch_trim_due cfg st = true ->
   renderCount st' = 0 /\ lineCount st' = 0 /\ prepends out (FORCED_TRIM ++ s)) /\
  (isTypingActive cfg now st = false -> 0 < clearAfterRenders cfg ->
   renderCount st' = 0 /\
   exists mid, directives mid /\ prepends out (CLEAR_SCROLLBACK ++ mid ++ s)).
Proof.
  pose proof (repaint_deferral_core cfg now st s Hrep Hth) as Hc.
  pose proof (fun Hcap => line_cap_prepends cfg now st s (proj1 Hrep) Hcap) as Hl.
  pose proof (fun Hty Hg => glitch_trim_typing cfg now st s Hrep Hty Hg) as Hg.
  destruct (hook cfg now st (StrChunk s)) as [out st'].
  destruct Hc as [Hc1 Hc2].
  split; [exact Hc1|]. split; [intros _; exact Hl|]. split; [exact Hg | exact Hc2].
Qed.

(** A Repaint chunk at the threshold, 10ms after a keystroke (no detector,
    no line overflow). *)
Definition st_typing_repaint : State := {|
  renderCount := 499; lineCount := 0; lastTypingTime := 990;
  glitchRecoveryInProgress := false; glitchDetector := None; recoveryTasks := 0 |}.

Lemma C5_witness :
  is_repaint CLEAR_SCREEN /\
  clearAfterRenders config <= renderCount st_typing_repaint + 1 /\
  isTypingActive config 1000 st_typing_repaint = true /\
  lineCount st_typing_repaint + count_nl CLEAR_SCREEN <= maxLineCount config /\
  glitch_trim_due config st_typing_repaint = false /\
  isTypingActive config 2000 st_typing_repaint = false /\
  (let '(out, st') := hook config 1000 st_typing_repaint (StrChunk CLEAR_SCREEN) in
   out = StrChunk CLEAR_SCREEN /\ renderCount st' = renderCount st_typing_repaint + 1) /\
  (let '(out, st') := hook config 2000 st_typing_repaint (StrChunk CLEAR_SCREEN) in
   renderCount st' = 0 /\
   exists mid, directives mid /\ prepends out (CLEAR_SCROLLBACK ++ mid ++ CLEAR_SCREEN)).
Proof.
  assert (Hr : is_repaint CLEAR_SCREEN) by (split; [|split]; reflexivity).
  assert (Ht : clearAfterRenders config <= renderCount st_typing_repaint + 1)
    by (vm_compute; discriminate).
  assert (Hty : isTypingActive config 1000 st_typing_repaint = true) by reflexivity.
  assert (Hl : lineCount st_typing_repaint + count_nl CLEAR_SCREEN <= maxLineCount config)
    by (vm_compute; discriminate).
  assert (Hg : glitch_trim_due config st_typing_repaint = false) by reflexivity.
  assert (Hin : isTypingActive config 2000 st_typing_repaint = false) by reflexivity.
  assert (Hpos : 0 < clearAfterRenders config) by (simpl; lia).
  do 6 (split; [assumption|]).
  split.
  - pose proof (C5_repaint_deferral config 1000 st_typing_repaint CLEAR_SCREEN Hr Ht) as H.
    destruct (hook config 1000 st_typing_repaint (StrChunk CLEAR_SCREEN)) as [out st'].
    exact (proj1 H Hty Hl Hg).
  - pose proof (C5_repaint_deferral config 2000 st_typing_repaint CLEAR_SCREEN Hr Ht) as H.
    destruct (hook config 2000 st_typing_repaint (StrChunk CLEAR_SCREEN)) as [out st'].
    exact (proj2 (proj2 (proj2 H)) Hin Hpos).
Defined.

(* ------------------------------------------------------------------ *)
(** ** C3: the vote *)

Module DetectorProps.
Import Detector.

(** The three signal values computed by one [checkGlitchState()]. *)
Definition signals (cfg : DConfig) (now : Z) (d : GlitchDetector) : bool * bool * bool :=
  let '(s, d1) := checkStdinSilence cfg now d in
  let '(w, d2) := checkSigwinchStorm cfg d1 in
  let '(r, _) := checkRenderSpike cfg d2 in
  (s, w, r).

(** The vote in the words of the specification: at least two of the three
    signals, or stdin silence alone. *)
Definition claim_vote (s w r : bool) : bool :=
  ((s && w) || (s && r) || (w && r)) || (s && negb w && negb r).

Definition glitched_after (cfg : DConfig) (now : Z) (d : GlitchDetector) : bool :=
  let '(_, d', _) := checkGlitchState cfg now d in isGlitched d'.

Definition voted (cfg : DConfig) (now : Z) (d : GlitchDetector) : bool :=
  let '(g, _, _) := checkGlitchState cfg now d in g.

Lemma vote_transition_isGlitched (s w r : bool) (now : Z) (d : GlitchDetector) :
  let '(g, d', _) := vote_transition s w r now d in
  g = claim_vote s w r /\ isGlitched d' = g.
Proof.
  unfold vote_transition.
  destruct s, w, r, (isGlitched d) eqn:G; simpl; split; first [reflexivity | exact G].
Qed.

(** C3: at each periodic check the vote is "at least two of the three
    signals, or stdin silence alone", and the detector ends Glitched exactly
    when voted; in particular (true,false,false) and (false,true,true)
    yield Glitched and (false,false,false) yields Normal, from any state. *)
Theorem C3_vote (cfg : DConfig) (now : Z) (d : GlitchDetector) :
  (let '(s, w, r) := signals cfg now d in
   voted cfg now d = claim_vote s w r /\
   glitched_after cfg now d = claim_vote s w r) /\
  (let '(_, d1, _) := vote_transition true false false now d in isGlitched d1 = true) /\
  (let '(_, d1, _) := vote_transition false true true now d in isGlitched d1 = true) /\
  (let '(_, d1, _) := vote_transition false false false now d in isGlitched d1 = false).
Proof.
  split.
  - unfold signals, voted, glitched_after, checkGlitchState.
    destruct (checkStdinSilence cfg now d) as [s d1].
    destruct (checkSigwinchStorm cfg d1) as [w d2].
    destruct (checkRenderSpike cfg d2) as [r d3].
    pose proof (vote_transition_isGlitched s w r now d3) as H.
    destruct (vote_transition s w r now d3) as [[g d'] evs].
    destruct H as [-> ->]. split; reflexivity.
  - unfold vote_transition.
    destruct (isGlitched d) eqn:G; simpl; repeat split; first [reflexivity | exact G].
Qed.

(* ------------------------------------------------------------------ *)
(** ** C9: [isGlitched] iff [glitchStartTime] is set *)

(** Detector states reachable from the constructor through the detector's
    operations: periodic checks, output samples, resize notifications and
    their decay timers, stdin activity, the recovery counter, and [reset]. *)
Inductive reachable (cfg : DConfig) : GlitchDetector -> Prop :=
| reach_create now : reachable cfg (create now)
| reach_check now d : reachable cfg d ->
    reachable cfg (let '(_, d', _) := checkGlitchState cfg now d in d')
| reach_track now d : reachable cfg d -> reachable cfg (trackStdout now d)
| reach_sigwinch now d : reachable cfg d -> reachable cfg (onSigwinch cfg now d)
| reach_decay d : reachable cfg d -> reachable cfg (sigwinchDecay d)
| reach_stdin now d : reachable cfg d -> reachable cfg (stdinData now d)
| reach_recovery d : reachable cfg d ->
    reachable cfg (with_metrics (bump_recoveries (metrics d)) d)
| reach_reset now d : reachable cfg d -> reachable cfg (reset now d).

Definition glitch_inv (d : GlitchDetector) : Prop :=
  isGlitched d = true <-> glitchStartTime d <> None.

Lemma checks_keep_glitch (cfg : DConfig) (now : Z) (d : GlitchDetector) :
  let '(_, d1) := checkStdinSilence cfg now d in
  let '(_, d2) := checkSigwinchStorm cfg d1 in
  let '(_, d3) := checkRenderSpike cfg d2 in
  isGlitched d3 = isGlitched d /\ glitchStartTime d3 = glitchStartTime d.
Proof.
  unfold checkStdinSilence, checkSigwinchStorm, checkRenderSpike.
  repeat match goal with |- context [if ?b then _ else _] => destruct b end;
  split; reflexivity.
Qed.

Lemma check_inv (cfg : DConfig) (now : Z) (d : GlitchDetector) :
  glitch_inv d -> glitch_inv (let '(_, d', _) := checkGlitchState cfg now d in d').
Proof.
  unfold glitch_inv, checkGlitchState. intros Hd.
  pose proof (checks_keep_glitch cfg now d) as K.
  destruct (checkStdinSilence cfg now d) as [s d1].
  destruct (checkSigwinchStorm cfg d1) as [w d2].
  destruct (checkRenderSpike cfg d2) as [r d3].
  destruct K as [K1 K2]. rewrite <- K1, <- K2 in Hd.
  unfold vote_transition.
  destruct s, w, r, (isGlitched d3) eqn:G; simpl;
    first [ rewrite G; exact Hd
          | split; [intros _; discriminate | intros _; reflexivity]
          | split; [intros H; discriminate H | intros H; exfalso; apply H; reflexivity] ].
Qed.

(** C9: in every reachable detector state, [isGlitched] is true exactly
    when [glitchStartTime] is non-null. *)
Theorem C9_glitch_start_invariant (cfg : DConfig) (d : GlitchDetector)
    (Hr : reachable cfg d) :
  isGlitched d = true <-> glitchStartTime d <> None.
Proof.
  change (glitch_inv d).
  induction Hr as [now|now d _ IH|now d _ IH|now d _ IH|d _ IH|now d _ IH|d _ IH|now d _ IH].
  - unfold glitch_inv; simpl. split; [discriminate | intros H; exfalso; apply H; reflexivity].
  - now apply check_inv.
  - exact IH.
  - exact IH.
  - exact IH.
  - exact IH.
  - exact IH.
  - unfold glitch_inv; simpl. split; [discriminate | intros H; exfalso; apply H; reflexivity].
Qed.

Lemma C9_witness :
  reachable DEFAULT_CONFIG detector_glitched /\
  (isGlitched detector_glitched = true <-> glitchStartTime detector_glitched <> None).
Proof.
  assert (H : reachable DEFAULT_CONFIG detector_glitched)
    by exact (reach_check DEFAULT_CONFIG 3000 (create 0) (reach_create DEFAULT_CONFIG 0)).
  split; [exact H|].
  exact (C9_glitch_start_invariant DEFAULT_CONFIG detector_glitched H).
Defined.

End DetectorProps.

(* ------------------------------------------------------------------ *)
(** ** C2: resize debounce *)

Module DebounceProps.
Import Debounce.

Example run_isolated : run 150 [1000] init = [1000].
Proof. reflexivity. Qed.
Example run_three : run 150 [1000; 1100; 1200; 2000] init = [1000; 1350; 2000].
Proof. reflexivity. Qed.

(** C2, as stated, fails: two notifications 50ms apart (window 150ms)
    from the initial state invoke the callbacks twice, immediately at the
    first one (it is isolated from the initial [lastResizeTime = 0]) and
    once more 150ms after the second. *)
Lemma C2_counterexample :
  gaps_below 150 1000 [1050] /\
  run 150 [1000; 1050] init = [1000; 1200] /\
  List.length (run 150 [1000; 1050] init) <> 1%nat.
Proof.
  split; [simpl; split; [lia | exact I]|].
  split; [reflexivity | simpl; discriminate].
Qed.

Lemma last_default (x : Z) (l : list Z) (a b : Z) : last (x :: l) a = last (x :: l) b.
Proof.
  revert x; induction l as [|y l IH]; intros x; [reflexivity|].
  change (last (y :: l) a = last (y :: l) b). apply IH.
Qed.

(** While a burst goes on, the armed timer is re-armed at every
    notification and fires once, [W] after the last one. *)
Lemma run_burst_tail (W t : Z) (rest later : list Z) :
  gaps_below W t rest ->
  (forall t', hd_error later = Some t' -> last rest t + W <= t') ->
  run W (rest ++ later) {| lastResizeTime := t; pending := Some (t + W) |} =
  (last rest t + W) :: run W later {| lastResizeTime := last rest t; pending := None |}.
Proof.
  revert t. induction rest as [|t1 rest IH]; intros t Hg Hl.
  - simpl in Hl. destruct later as [|t' later].
    + reflexivity.
    + specialize (Hl t' eq_refl). simpl.
      replace (t + W <=? t') with true by (symmetry; apply Z.leb_le; lia).
      destruct (debouncedSigwinch W t' _) as [d2 c]. reflexivity.
  - destruct Hg as [Hlt Hg]. simpl.
    replace (t + W <=? t1) with false by (symmetry; apply Z.leb_gt; lia).
    unfold debouncedSigwinch. simpl.
    replace (t1 - t <? W) with true by (symmetry; apply Z.ltb_lt; lia).
    simpl. rewrite (IH t1 Hg).
    + destruct rest as [|z rest]; [reflexivity|].
      rewrite (last_default z rest t1 t). reflexivity.
    + intros t' Ht'. specialize (Hl t' Ht').
      destruct rest as [|z rest]; [simpl in *; lia|].
      rewrite (last_default z rest t1 t). exact Hl.
Qed.

(** C2 (amended): starting from a quiet debouncer (no timer pending), a
    burst t1 < ... < tN whose first notification is isolated (at least [W]
    after the previous one) and whose later notifications each come less
    than [W] after the previous one invokes the callbacks immediately and
    synchronously at t1, without arming a timer, and, when N >= 2, exactly
    once more, at tN + W; nothing else happens until the next notification
    (which comes at or after tN + W), and the debouncer is quiet again. *)
Theorem C2_debounce_burst (W t1 : Z) (rest later : list Z) (d : Deb)
    (Hquiet : pending d = None)
    (Hiso : W <= t1 - lastResizeTime d)
    (Hgaps : gaps_below W t1 rest)
    (Hnext : forall t', hd_error later = Some t' -> last rest t1 + W <= t') :
  debouncedSigwinch W t1 d = ({| lastResizeTime := t1; pending := None |}, [t1]) /\
  run W (t1 :: rest ++ later) d =
  t1 :: (match rest with [] => [] | _ :: _ => [last rest t1 + W] end)
     ++ run W later {| lastResizeTime := last rest t1; pending := None |}.
Proof.
  assert (Hd : debouncedSigwinch W t1 d =
               ({| lastResizeTime := t1; pending := None |}, [t1])).
  { unfold debouncedSigwinch.
    replace (t1 - lastResizeTime d <? W) with false
      by (symmetry; apply Z.ltb_ge; lia).
    reflexivity. }
  split; [exact Hd|].
  simpl. rewrite Hquiet, Hd. simpl.
  destruct rest as [|t2 rest'].
  - reflexivity.
  - destruct Hgaps as [H12 Hg]. simpl.
    unfold debouncedSigwinch. simpl.
    replace (t2 - t1 <? W) with true by (symmetry; apply Z.ltb_lt; lia).
    simpl. rewrite (run_burst_tail W t2 rest' later Hg).
    + destruct rest' as [|z rest']; [reflexivity|].
      rewrite (last_default z rest' t2 t1). reflexivity.
    + intros t' Ht'. specialize (Hnext t' Ht').
      destruct rest' as [|z rest']; [simpl in *; lia|].
      rewrite (last_default z rest' t2 t1). exact Hnext.
Qed.

Lemma C2_witness :
  pending init = None /\ 150 <= 1000 - lastResizeTime init /\
  gaps_below 150 1000 [1050; 1100] /\
  (forall t', hd_error [2000] = Some t' -> last [1050; 1100] 1000 + 150 <= t') /\
  (debouncedSigwinch 150 1000 init = ({| lastResizeTime := 1000; pending := None |}, [1000]) /\
   run 150 (1000 :: [1050; 1100] ++ [2000]) init =
   1000 :: [last [1050; 1100] 1000 + 150]
        ++ run 150 [2000] {| lastResizeTime := last [1050; 1100] 1000; pending := None |}).
Proof.
  assert (H1 : pending init = None) by reflexivity.
  assert (H2 : 150 <= 1000 - lastResizeTime init) by (simpl; lia).
  assert (H3 : gaps_below 150 1000 [1050; 1100]) by (simpl; repeat split; lia).
  assert (H4 : forall t', hd_error [2000] = Some t' -> last [1050; 1100] 1000 + 150 <= t')
    by (simpl; intros t' Ht; injection Ht as <-; lia).
  split; [exact H1|]. split; [exact H2|]. split; [exact H3|]. split; [exact H4|].
  exact (C2_debounce_burst 150 1000 [1050; 1100] [2000] init H1 H2 H3 H4).
Defined.

End DebounceProps.

(* ------------------------------------------------------------------ *)
(** ** C8: [disable()] *)

Module LifecycleProps.
Import Lifecycle.

Definition after_install : Sys := install false 60000 true boot.

(** C8, as stated, fails: after [install()] and a burst resize, [disable()]
    leaves [process.on] wrapped by the resize debounce (and the detector)
    and the debounced resize timer pending. *)
Lemma C8_counterexample :
  let s := disable (sigwinch_burst after_install) in
  process_on s = [DetectorWrapper; DebounceWrapper] /\ process_on s <> process_on boot /\
  resizeTimeout s = true /\ stdout_write s = NativeWrite.
Proof. simpl. repeat split; discriminate. Qed.

(** C8 (amended): [disable()] is idempotent, is a no-op before [install()]
    (and whenever nothing was hooked), and puts back the [stdout.write]
    saved by [install()]; it does not touch [process.on], which stays
    wrapped, nor a pending debounced resize timer. *)
Theorem C8_disable (s : Sys) (disabled : bool) (periodicClearMs : Z) (hasDetector : bool) :
  disable (disable s) = disable s /\
  disable boot = boot /\
  (originalWrite s = None -> disable s = s) /\
  (installed s = false -> disabled = false ->
   stdout_write (disable (install disabled periodicClearMs hasDetector s)) = stdout_write s) /\
  process_on (disable s) = process_on s /\
  resizeTimeout (disable s) = resizeTimeout s.
Proof.
  split; [destruct s as [i [w|] sw po ci dc di rt]; reflexivity|].
  split; [reflexivity|].
  split; [unfold disable; intros ->; reflexivity|].
  split; [intros Hi Hd; unfold install; rewrite Hi, Hd; reflexivity|].
  unfold disable; destruct (originalWrite s); split; reflexivity.
Qed.

End LifecycleProps.

(* ------------------------------------------------------------------ *)
(** ** C7: recovery *)

Module RecoveryProps.
Import Detector Recovery.

(** Events a periodic check can emit. *)
Definition check_event (e : DetEvent) : Prop :=
  match e with
  | GlitchDetectedEv _ _ _ | GlitchResolvedEv _ => True
  | _ => False
  end.

Lemma check_events (cfg : DConfig) (now : Z) (d : GlitchDetector) :
  let '(_, _, evs) := checkGlitchState cfg now d in Forall check_event evs.
Proof.
  unfold checkGlitchState.
  destruct (checkStdinSilence cfg now d) as [s d1].
  destruct (checkSigwinchStorm cfg d1) as [w d2].
  destruct (checkRenderSpike cfg d2) as [r d3].
  unfold vote_transition.
  destruct (_ && _); [repeat constructor|].
  destruct (_ && _); repeat constructor.
Qed.

Definition env_exec_fails : RecEnv := {|
  env_STY := Some "s"%string; env_SPECMEM_SCREEN_SESSION := None;
  execSync_throws := true; stdout_isTTY := true; stdout_write_throws := false;
  resume1 := 4000; during_sleep1 := fun d => d;
  resume2 := 5000; during_sleep2 := fun d => d |}.

(** C7 fails on the code: when the screen command throws, the exception
    is caught by the single [try] around both methods, [recovery-error] is
    emitted and [false] returned, and the direct scrollback clear (the
    second method) is never attempted, although stdout is a TTY; a screen
    command that runs without throwing but leaves the glitch does fall
    through to the scrollback clear. *)
Lemma C7_counterexample :
  isGlitched detector_glitched = true /\
  (let '(o, _, evs, acts) :=
     attemptRecovery DEFAULT_CONFIG env_exec_fails detector_glitched in
   o = Ok false /\ evs = [RecoveryStarted; RecoveryError] /\
   acts = [ScreenStuff "s"%string] /\ ~ In WriteClearScrollback acts).
Proof.
  split; [reflexivity|].
  vm_compute. split; [reflexivity|]. split; [reflexivity|].
  split; [reflexivity|]. intros [H|H]; [discriminate H | exact H].
Qed.

Ltac ev_absurd :=
  match goal with
  | H : In ?e ?evs, He : Forall check_event ?evs |- _ =>
      let T := fresh in
      pose proof (proj1 (Forall_forall check_event evs) He e H) as T;
      simpl in T; contradiction
  end.

(** C7, what the code does: once glitched, [attemptRecovery()] always
    resolves (an exception never rejects the promise); it resolves with [true] exactly
    when it emitted [recovery-success]; any caught exception emits
    [recovery-error] and yields [false]; [recovery-failed] means both
    methods ran without resolving and yields [false]; when the screen
    command throws, the recovery stops there with [recovery-error] and the
    scrollback clear is not attempted; when it does not throw (or there is
    no session) and does not resolve the glitch, the scrollback clear is
    attempted (on a TTY). *)
Theorem C7_recovery (cfg : DConfig) (env : RecEnv) (d : GlitchDetector)
    (Hg : isGlitched d = true) :
  let '(o, _, evs, acts) := attemptRecovery cfg env d in
  let session := js_or (env_STY env) (env_SPECMEM_SCREEN_SESSION env) in
  (exists b, o = Ok b) /\
  (o = Ok true <-> exists m, In (RecoverySuccess m) evs) /\
  (In RecoveryError evs -> o = Ok false) /\
  (In RecoveryFailed evs ->
     o = Ok false /\ (stdout_isTTY env = true -> In WriteClearScrollback acts)) /\
  (truthy session = true -> execSync_throws env = true ->
     o = Ok false /\ In RecoveryError evs /\ ~ In WriteClearScrollback acts) /\
  ((truthy session = true -> execSync_throws env = false) ->
     ~ In (RecoverySuccess "screen") evs -> stdout_isTTY env = true ->
     In WriteClearScrollback acts).
Proof.
  unfold attemptRecovery. rewrite Hg.
  unfold recovery_body, method1, method2, execSync, stdout_write_clear, sleep, check.
  unfold try_catch, bind, ret, throw, emit, perform, modify_det.
  cbn [negb det events actions app].
  destruct (js_or (env_STY env) (env_SPECMEM_SCREEN_SESSION env)) as [ses|] eqn:Es;
    [destruct (truthy (Some ses)) eqn:Et|];
    destruct (execSync_throws env) eqn:Ex, (stdout_isTTY env) eqn:Etty,
      (stdout_write_throws env) eqn:Ew;
    cbn beta iota zeta;
    repeat match goal with
           | |- context [checkGlitchState ?c ?n ?x] =>
               let He := fresh "He" in
               pose proof (check_events c n x) as He;
               destruct (checkGlitchState c n x) as [[?g ?d'] ?evs];
               destruct g; cbn [negb det events actions app]
           end.
  all: cbn [negb det events actions app].
  all: repeat split; intros;
    repeat match goal with
           | H : In _ (_ :: _) |- _ => destruct H as [H|H]
           | H : In _ (_ ++ _) |- _ => apply in_app_iff in H as [H|H]
           | H : In _ [] |- _ => destruct H
           | H : exists _, _ |- _ => destruct H
           | H : true = true -> _ |- _ => specialize (H eq_refl)
           end;
    try discriminate; try ev_absurd; try congruence;
    try (eexists; reflexivity);
    try (exists "screen"%string; simpl; rewrite ?in_app_iff; simpl; tauto);
    try (exists "scrollback-clear"%string; simpl; rewrite ?in_app_iff; simpl; tauto);
    try (simpl; rewrite ?in_app_iff; simpl; tauto);
    try (simpl; intuition discriminate);
    try (exfalso; match goal with
                  | H : ~ _ |- _ => apply H; simpl; rewrite ?in_app_iff; simpl; tauto
                  end).
Qed.

(** The recovery of the glitched detector when the screen command fails. *)
Lemma C7_witness :
  isGlitched detector_glitched = true /\
  (let '(o, _, evs, acts) :=
     attemptRecovery DEFAULT_CONFIG env_exec_fails detector_glitched in
   let session := js_or (env_STY env_exec_fails)
                        (env_SPECMEM_SCREEN_SESSION env_exec_fails) in
   (exists b, o = Ok b) /\
   (o = Ok true <-> exists m, In (RecoverySuccess m) evs) /\
   (In RecoveryError evs -> o = Ok false) /\
   (In RecoveryFailed evs ->
      o = Ok false /\ (stdout_isTTY env_exec_fails = true -> In WriteClearScrollback acts)) /\
   (truthy session = true -> execSync_throws env_exec_fails = true ->
      o = Ok false /\ In RecoveryError evs /\ ~ In WriteClearScrollback acts) /\
   ((truthy session = true -> execSync_throws env_exec_fails = false) ->
      ~ In (RecoverySuccess "screen") evs -> stdout_isTTY env_exec_fails = true ->
      In WriteClearScrollback acts)).
Proof.
  split; [reflexivity|].
  exact (C7_recovery DEFAULT_CONFIG env_exec_fails detector_glitched eq_refl).
Defined.

End RecoveryProps.

(* ------------------------------------------------------------------ *)
(** * Further properties of the code

    The older hook versions against the current one, the hook's output
    and counters, the recovery queue, [safeClearScrollback], the process
    hooks and the detector's own [install()]/[disable()], the detector's
    counters, events and sample window, [forceRecovery()], the resize
    debounce, and [setConfig()]. *)

Module SupervisorExtProps.

Lemma count_nl_nonneg (s : jsstr) : 0 <= count_nl s.
Proof. unfold count_nl. lia. Qed.

(** Directives in front never create or hide a pattern. *)
Lemma inc_trim_screen s : includes (FORCED_TRIM ++ s) CLEAR_SCREEN = includes s CLEAR_SCREEN.
Proof. reflexivity. Qed.
Lemma inc_trim_home s : includes (FORCED_TRIM ++ s) HOME_CURSOR = includes s HOME_CURSOR.
Proof. reflexivity. Qed.
Lemma inc_trim_conv s :
  includes (FORCED_TRIM ++ s) CONVERSATION_CLEARED = includes s CONVERSATION_CLEARED.
Proof. reflexivity. Qed.
Lemma inc_trim_chat s : includes (FORCED_TRIM ++ s) CHAT_CLEARED = includes s CHAT_CLEARED.
Proof. reflexivity. Qed.
Lemma inc_clear_conv s :
  includes (CLEAR_SCROLLBACK ++ s) CONVERSATION_CLEARED = includes s CONVERSATION_CLEARED.
Proof. reflexivity. Qed.
Lemma inc_clear_chat s :
  includes (CLEAR_SCROLLBACK ++ s) CHAT_CLEARED = includes s CHAT_CLEARED.
Proof. reflexivity. Qed.

Ltac inc_rewrite :=
  repeat progress rewrite ?inc_trim_screen, ?inc_trim_home, ?inc_trim_conv, ?inc_trim_chat,
    ?inc_clear_conv, ?inc_clear_chat.

Ltac split_ifs :=
  repeat (cbn beta iota zeta delta [negb Legacy.renderCount101 Legacy.lastTypingTime101
          Legacy.p_renderCount Legacy.p_lineCount Legacy.p_lastTypingTime]; inc_rewrite;
          match goal with
          | |- context [if ?b then _ else _] => let E := fresh "E" in destruct b eqn:E
          end).

(** claude-fixed.js [processOutput] agrees with the current hook on every
    non-echo string chunk when no glitch detector is loaded: same output
    string, and the same render count, line count and last typing time
    afterwards.  The line cap, the repaint clear and the explicit-clear
    rule act identically in both. *)
Theorem processOutput_matches_hook (cfg : Config) (now : Z) (st : State) (s : jsstr)
    (Hdet : glitchDetector st = None) (Hecho : isStdinEcho s = false) :
  let '(out, st') := hook cfg now st (StrChunk s) in
  let '(out', ps') := Legacy.processOutput false cfg now (Legacy.to_pstate st) s in
  out = StrChunk out' /\ ps' = Legacy.to_pstate st'.
Proof.
  unfold hook, Legacy.processOutput, isTypingActive, Legacy.to_pstate.
  rewrite Hecho, Hdet.
  cbn [Legacy.p_renderCount Legacy.p_lineCount Legacy.p_lastTypingTime].
  split_ifs; split; reflexivity.
Qed.

Lemma processOutput_matches_hook_witness :
  glitchDetector st_demo = None /\ isStdinEcho CLEAR_SCREEN = false /\
  (let '(out, st') := hook config 1000 st_demo (StrChunk CLEAR_SCREEN) in
   let '(out', ps') :=
     Legacy.processOutput false config 1000 (Legacy.to_pstate st_demo) CLEAR_SCREEN in
   out = StrChunk out' /\ ps' = Legacy.to_pstate st').
Proof.
  split; [reflexivity|]. split; [reflexivity|].
  exact (processOutput_matches_hook config 1000 st_demo CLEAR_SCREEN eq_refl eq_refl).
Defined.

(** The v1.0.1 hook agrees with the current hook on every string chunk
    that does not push the line count over [maxLineCount], when no glitch
    detector is loaded: same output chunk, and the same render count and
    last typing time afterwards. *)
Theorem v101_matches_hook (cfg : Config) (now : Z) (st : State) (s : jsstr)
    (Hdet : glitchDetector st = None)
    (Hcap : lineCount st + count_nl s <= maxLineCount cfg) :
  let '(out, st') := hook cfg now st (StrChunk s) in
  let '(out', st101') := Legacy.hook_v101 cfg now (Legacy.to_state101 st) (StrChunk s) in
  out = out' /\ st101' = Legacy.to_state101 st'.
Proof.
  unfold hook, Legacy.hook_v101, isTypingActive, Legacy.to_state101.
  cbn [Legacy.renderCount101 Legacy.lastTypingTime101].
  destruct (isStdinEcho s); [split; reflexivity|].
  rewrite Hdet.
  replace (maxLineCount cfg <? lineCount st + count_nl s) with false
    by (symmetry; apply Z.ltb_ge; exact Hcap).
  split_ifs; split; reflexivity.
Qed.

Lemma v101_matches_hook_witness :
  glitchDetector st_demo = None /\
  lineCount st_demo + count_nl CLEAR_SCREEN <= maxLineCount config /\
  (let '(out, st') := hook config 1000 st_demo (StrChunk CLEAR_SCREEN) in
   let '(out', st101') :=
     Legacy.hook_v101 config 1000 (Legacy.to_state101 st_demo) (StrChunk CLEAR_SCREEN) in
   out = out' /\ st101' = Legacy.to_state101 st').
Proof.
  assert (H : lineCount st_demo + count_nl CLEAR_SCREEN <= maxLineCount config)
    by (vm_compute; discriminate).
  split; [reflexivity|]. split; [exact H|].
  exact (v101_matches_hook config 1000 st_demo CLEAR_SCREEN eq_refl H).
Defined.

(** The v1.0.0 hook agrees with the v1.0.1 hook on every non-echo string
    chunk once the typing cooldown has elapsed: same output chunk and
    render count; v1.0.1 leaves the last typing time unchanged. *)
Theorem v1_matches_v101 (cfg : Config) (now : Z) (st : Legacy.State101) (s : jsstr)
    (Hecho : isStdinEcho s = false)
    (Hidle : typingCooldownMs cfg <= now - Legacy.lastTypingTime101 st) :
  let '(out, st') := Legacy.hook_v101 cfg now st (StrChunk s) in
  Legacy.hook_v1 cfg (Legacy.renderCount101 st) (StrChunk s) = (out, Legacy.renderCount101 st') /\
  Legacy.lastTypingTime101 st' = Legacy.lastTypingTime101 st.
Proof.
  unfold Legacy.hook_v101, Legacy.hook_v1. rewrite Hecho.
  replace (now - Legacy.lastTypingTime101 st <? typingCooldownMs cfg) with false
    by (symmetry; apply Z.ltb_ge; exact Hidle).
  split_ifs; split; reflexivity.
Qed.

Lemma v1_matches_v101_witness :
  isStdinEcho CLEAR_SCREEN = false /\
  typingCooldownMs config <= 1000 - Legacy.lastTypingTime101 (Legacy.to_state101 st_demo) /\
  (let '(out, st') :=
     Legacy.hook_v101 config 1000 (Legacy.to_state101 st_demo) (StrChunk CLEAR_SCREEN) in
   Legacy.hook_v1 config (Legacy.renderCount101 (Legacy.to_state101 st_demo))
     (StrChunk CLEAR_SCREEN) = (out, Legacy.renderCount101 st') /\
   Legacy.lastTypingTime101 st' = Legacy.lastTypingTime101 (Legacy.to_state101 st_demo)).
Proof.
  assert (H : typingCooldownMs config <=
              1000 - Legacy.lastTypingTime101 (Legacy.to_state101 st_demo))
    by (simpl; lia).
  split; [reflexivity|]. split; [exact H|].
  exact (v1_matches_v101 config 1000 (Legacy.to_state101 st_demo) CLEAR_SCREEN eq_refl H).
Defined.

(** The hook never alters or drops the text it is given: its output
    is the input chunk with terminal directives placed in front. *)
Theorem hook_only_prepends (cfg : Config) (now : Z) (st : State) (s : jsstr) :
  let '(out, _) := hook cfg now st (StrChunk s) in prepends out s.
Proof. unfold hook. hook_cases; solve_prepends. Qed.

(** The hook keeps the line count between 0 and [maxLineCount]. *)
Theorem hook_lineCount_bound (cfg : Config) (now : Z) (st : State) (c : Chunk)
    (Hl : 0 <= lineCount st <= maxLineCount cfg) :
  let '(_, st') := hook cfg now st c in 0 <= lineCount st' <= maxLineCount cfg.
Proof.
  pose proof (count_nl_nonneg) as Hn.
  destruct c as [s|b]; [|exact Hl].
  unfold hook. hook_cases; bool_facts; try exact Hl; specialize (Hn s); lia.
Qed.

Lemma hook_lineCount_bound_witness :
  0 <= lineCount st_demo <= maxLineCount config /\
  (let '(_, st') := hook config 1000 st_demo (StrChunk (js "line" ++ [10])) in
   0 <= lineCount st' <= maxLineCount config).
Proof.
  assert (H : 0 <= lineCount st_demo <= maxLineCount config) by (simpl; lia).
  split; [exact H|].
  exact (hook_lineCount_bound config 1000 st_demo (StrChunk (js "line" ++ [10])) H).
Defined.

Lemma startsWith_split (s p : jsstr) : startsWith s p = true -> exists b, s = p ++ b.
Proof.
  revert s; induction p as [|x p IH]; intros [|y s] H; simpl in H;
    try discriminate.
  - exists []. reflexivity.
  - exists (y :: s). reflexivity.
  - apply andb_true_iff in H as [Hxy H]. apply Z.eqb_eq in Hxy as ->.
    destruct (IH s H) as [b ->]. exists b. reflexivity.
Qed.

Lemma includes_split (s p : jsstr) :
  includes s p = true -> exists a b, s = a ++ p ++ b.
Proof.
  induction s as [|x s IH]; intros H; change (includes ?s0 p) with
    (startsWith s0 p || match s0 with [] => false | _ :: s' => includes s' p end) in H;
    apply orb_true_iff in H as [H|H].
  - apply startsWith_split in H as [b ->]. exists [], b. reflexivity.
  - discriminate.
  - apply startsWith_split in H as [b Hb]. exists [], b. exact Hb.
  - destruct (IH H) as [a [b ->]]. exists (x :: a), b. reflexivity.
Qed.

(** A chunk classified as a stdin echo (and passed through untouched)
    never contains the clear-screen sequence nor the conversation-cleared
    or chat-cleared markers. *)
Theorem echo_never_hides_clear (s : jsstr) (H : isStdinEcho s = true) :
  includes s CLEAR_SCREEN = false /\
  includes s CONVERSATION_CLEARED = false /\ includes s CHAT_CLEARED = false.
Proof.
  assert (Hshort : (List.length s <= 6)%nat).
  { destruct (Nat.le_gt_cases (List.length s) 6) as [L|L]; [exact L|].
    rewrite isStdinEcho_long in H by lia. discriminate. }
  split; [|split]; apply not_true_iff_false; intros Hi.
  2, 3: apply includes_length in Hi; simpl in Hi; lia.
  destruct (includes_split _ _ Hi) as [a [b Hs]].
  assert (HJ : includes s (js "J") = true).
  { change (js "J") with [74]. apply includes_single. rewrite Hs.
    apply in_or_app; right. simpl. tauto. }
  rewrite isStdinEcho_spec, HJ in H. simpl negb in H.
  rewrite andb_false_r, orb_false_r in H.
  assert (Hl : (4 <= List.length s)%nat)
    by (rewrite Hs, !length_app; simpl; lia).
  apply orb_true_iff in H as [H|H].
  - apply orb_true_iff in H as [H|H].
    + apply andb_true_iff in H as [[H _]%andb_true_iff _].
      unfold len in H. apply Z.eqb_eq in H. lia.
    + apply andb_true_iff in H as [H4 H].
      unfold len in H4. apply Z.leb_le in H4.
      assert (a = [] /\ b = []) as [-> ->].
      { rewrite Hs, !length_app in H4. simpl in H4.
        destruct a, b; simpl in H4; split; reflexivity || lia. }
      rewrite app_nil_r in Hs. subst s. discriminate H.
  - destruct (list_eq_dec Z.eq_dec s [10]) as [->|]; [simpl in Hl; lia|].
    destruct (list_eq_dec Z.eq_dec s [13]) as [->|]; [simpl in Hl; lia|].
    destruct (list_eq_dec Z.eq_dec s [13; 10]) as [->|]; [simpl in Hl; lia|].
    discriminate.
Qed.

Lemma echo_never_hides_clear_witness :
  isStdinEcho (js "a") = true /\
  (includes (js "a") CLEAR_SCREEN = false /\
   includes (js "a") CONVERSATION_CLEARED = false /\ includes (js "a") CHAT_CLEARED = false).
Proof.
  split; [reflexivity|]. exact (echo_never_hides_clear (js "a") eq_refl).
Defined.

(** What one write does to the recovery flag and the task queue. *)
Lemma hook_recovery_step (cfg : Config) (now : Z) (st : State) (c : Chunk) :
  let '(_, st') := hook cfg now st c in
  (recoveryTasks st' = recoveryTasks st /\
   glitchRecoveryInProgress st' = glitchRecoveryInProgress st) \/
  (glitchRecoveryInProgress st = false /\ glitchRecoveryInProgress st' = true /\
   recoveryTasks st' = S (recoveryTasks st)).
Proof.
  destruct c as [s|b]; [|left; split; reflexivity].
  unfold hook. hook_cases; bool_facts;
    first [ left; split; reflexivity | right; repeat split; assumption ].
Qed.

(** At most one glitch recovery is queued at a time: in every reachable
    supervisor state the number of queued recovery callbacks is 1 while
    [glitchRecoveryInProgress] is set and 0 otherwise. *)
Theorem recovery_single_flight (cfg : Config) (st : State)
    (Hr : SupervisorRun.sup_reachable cfg st) :
  recoveryTasks st = (if glitchRecoveryInProgress st then 1 else 0)%nat.
Proof.
  induction Hr as [det|now c st _ IH|now st _ IH|d' st _ IH|d' st _ IH Hpos].
  - reflexivity.
  - pose proof (hook_recovery_step cfg now st c) as H.
    destruct (hook cfg now st c) as [out st']. simpl.
    destruct H as [[-> ->] | [Hf [-> ->]]]; [exact IH|].
    rewrite Hf in IH. rewrite IH. reflexivity.
  - exact IH.
  - exact IH.
  - simpl. destruct (glitchRecoveryInProgress st); rewrite IH in *; simpl in *; [reflexivity | lia].
Qed.

(** A supervisor that loaded the glitched detector and then wrote a chunk. *)
Lemma recovery_single_flight_witness :
  let st := snd (hook config 4000 (SupervisorRun.st_init (Some detector_glitched))
                      (StrChunk (js "x"))) in
  SupervisorRun.sup_reachable config st /\
  recoveryTasks st = (if glitchRecoveryInProgress st then 1 else 0)%nat.
Proof.
  intros st.
  assert (H : SupervisorRun.sup_reachable config st)
    by exact (SupervisorRun.sup_write config 4000 (StrChunk (js "x")) _
                (SupervisorRun.sup_start config (Some detector_glitched))).
  split; [exact H|]. exact (recovery_single_flight config st H).
Defined.

End SupervisorExtProps.

Module SCProps.
Import SafeClear.

Lemma sc_invariant (cfg : Config) (sc : SC) :
  sc_reachable cfg sc ->
  List.length (deferred sc) = (if pendingClear sc then 1 else 0)%nat /\
  Forall (fun w => w = FORCED_TRIM) (immediates sc ++ written sc).
Proof.
  intros Hr. induction Hr as [|now st o t sc _ [IH1 IH2]|now st o t sc _ [IH1 IH2] Hd|sc _ [IH1 IH2] Hi].
  - split; [reflexivity | constructor].
  - unfold safeClearScrollback.
    destruct (isTypingActive cfg now st).
    + destruct (pendingClear sc) eqn:P; simpl.
      * rewrite P; split; assumption.
      * rewrite length_app, IH1. split; [reflexivity | exact IH2].
    + destruct (o && t); simpl; [|split; assumption].
      split; [exact IH1|].
      apply Forall_app in IH2 as [A B].
      rewrite <- app_assoc. apply Forall_app; split; [exact A|].
      apply Forall_app; split; [constructor; [reflexivity | constructor] | exact B].
  - destruct (deferred sc) as [|due rest] eqn:D; [congruence|].
    destruct (pendingClear sc) eqn:P; simpl in IH1; [|discriminate].
    destruct rest; [|discriminate].
    unfold deferredFire, safeClearScrollback; rewrite D; cbn.
    destruct (isTypingActive cfg now st); simpl; [split; [reflexivity | exact IH2]|].
    destruct (o && t); simpl; [|split; [reflexivity | exact IH2]].
    split; [reflexivity|].
    apply Forall_app in IH2 as [A B].
    rewrite <- app_assoc. apply Forall_app; split; [exact A|].
    apply Forall_app; split; [constructor; [reflexivity | constructor] | exact B].
  - unfold runImmediate. destruct (immediates sc) as [|w rest] eqn:I; [congruence|].
    simpl. split; [exact IH1|].
    simpl in IH2. inversion IH2 as [|x l Hw Hrest]; subst.
    rewrite app_assoc. apply Forall_app; split; [exact Hrest|].
    constructor; [reflexivity | constructor].
Qed.

(** [safeClearScrollback] defers at most one clear: the deferred timers
    number 1 while [pendingClearScrollback] is set and 0 otherwise; and
    everything it writes, or queues to write, is the forced trim sequence. *)
Theorem safeClear_single_deferral (cfg : Config) (sc : SC)
    (Hr : sc_reachable cfg sc) :
  List.length (deferred sc) = (if pendingClear sc then 1 else 0)%nat /\
  Forall (fun w => w = FORCED_TRIM) (immediates sc ++ written sc).
Proof. exact (sc_invariant cfg sc Hr). Qed.

Lemma safeClear_single_deferral_witness :
  let sc := safeClearScrollback config 1000 st_typing true true sc_init in
  sc_reachable config sc /\
  (List.length (deferred sc) = (if pendingClear sc then 1 else 0)%nat /\
   Forall (fun w => w = FORCED_TRIM) (immediates sc ++ written sc)).
Proof.
  intros sc.
  assert (H : sc_reachable config sc)
    by exact (sc_tick config 1000 st_typing true true sc_init (sc_start config)).
  split; [exact H|]. exact (safeClear_single_deferral config sc H).
Defined.

(** When the deferred clear fires, the pending flag is cleared and no
    timer remains; one forced trim is queued exactly when typing is no
    longer active, the original write exists and stdout is a TTY; nothing
    already written changes. *)
Theorem deferred_fire_outcome (cfg : Config) (sc : SC) (now : Z) (st : State)
    (o t : bool) (Hr : sc_reachable cfg sc) (Hd : deferred sc <> []) :
  let sc' := deferredFire cfg now st o t sc in
  pendingClear sc' = false /\ deferred sc' = [] /\ written sc' = written sc /\
  immediates sc' =
    immediates sc ++ (if negb (isTypingActive cfg now st) && o && t then [FORCED_TRIM] else []).
Proof.
  destruct (sc_invariant cfg sc Hr) as [H1 _].
  destruct (deferred sc) as [|due rest] eqn:D; [congruence|].
  destruct (pendingClear sc) eqn:P; simpl in H1; [|discriminate].
  destruct rest; [|discriminate].
  unfold deferredFire, safeClearScrollback; rewrite D; cbn.
  destruct (isTypingActive cfg now st); simpl;
    [repeat split; symmetry; apply app_nil_r|].
  destruct (o && t); simpl; repeat split; try reflexivity. symmetry; apply app_nil_r.
Qed.

(** A clear deferred while typing, fired after the cooldown. *)
Lemma deferred_fire_outcome_witness :
  let sc := safeClearScrollback config 1000 st_typing true true sc_init in
  sc_reachable config sc /\ deferred sc <> [] /\
  (let sc' := deferredFire config 1600 st_typing true true sc in
   pendingClear sc' = false /\ deferred sc' = [] /\ written sc' = written sc /\
   immediates sc' =
     immediates sc ++ (if negb (isTypingActive config 1600 st_typing) && true && true
                       then [FORCED_TRIM] else [])).
Proof.
  intros sc.
  assert (H : sc_reachable config sc)
    by exact (sc_tick config 1000 st_typing true true sc_init (sc_start config)).
  assert (Hd : deferred sc <> []) by (vm_compute; discriminate).
  split; [exact H|]. split; [exact Hd|].
  exact (deferred_fire_outcome config sc 1600 st_typing true true H Hd).
Defined.

End SCProps.

Module LifecycleExtProps.
Import Lifecycle LifecycleExt.

Lemma installed_disable (s : Sys) : Lifecycle.installed (disable s) = Lifecycle.installed s.
Proof. unfold disable. destruct (originalWrite s); reflexivity. Qed.

(** In every reachable process state, [clearScrollback()] writes through
    the native [process.stdout.write], never through the hook, whether or
    not [install()] or [disable()] ran. *)
Theorem clearScrollback_native (s : Sys) (Hr : sys_reachable s) :
  clearScrollback s = NativeWrite.
Proof.
  enough (H : (Lifecycle.installed s = false ->
               originalWrite s = None /\ stdout_write s = NativeWrite) /\
              (Lifecycle.installed s = true -> originalWrite s = Some NativeWrite)).
  { unfold clearScrollback. destruct (Lifecycle.installed s).
    - rewrite (proj2 H eq_refl). reflexivity.
    - destruct (proj1 H eq_refl) as [-> ->]. reflexivity. }
  induction Hr as [|dis p h s _ IH|s _ IH|s _ IH|s _ IH|s _ IH].
  - split; [intros _; split; reflexivity | discriminate].
  - unfold install. destruct (Lifecycle.installed s || dis) eqn:E; [exact IH|].
    apply orb_false_iff in E as [E _]. simpl.
    destruct (proj1 IH E) as [_ ->]. split; [discriminate | reflexivity].
  - unfold disable. destruct IH as [I1 I2].
    destruct (Lifecycle.installed s) eqn:E.
    + rewrite (I2 eq_refl). simpl.
      split; [discriminate | reflexivity].
    + destruct (I1 eq_refl) as [O W]. rewrite O.
      rewrite E. split; [intros _; split; assumption | discriminate].
  - exact IH.
  - unfold detector_install. destruct (detectorInstalled s); exact IH.
  - exact IH.
Qed.

Lemma clearScrollback_native_witness :
  sys_reachable (disable (install false 60000 true boot)) /\
  clearScrollback (disable (install false 60000 true boot)) = NativeWrite.
Proof.
  assert (H : sys_reachable (disable (install false 60000 true boot)))
    by exact (sys_disable _ (sys_install false 60000 true boot sys_boot)).
  split; [exact H|]. exact (clearScrollback_native _ H).
Defined.

(** [install()] after [disable()] does nothing: [installed] stays true, so
    the hook is not put back on [process.stdout.write]. *)
Theorem install_after_disable (dis : bool) (p : Z) (h : bool) (s : Sys) :
  install dis p h (disable (install dis p h s)) = disable (install dis p h s).
Proof.
  unfold install at 1. rewrite installed_disable.
  unfold install. destruct (Lifecycle.installed s || dis) eqn:E.
  - rewrite E. reflexivity.
  - reflexivity.
Qed.

Lemma onSigwinch_count (cfg : Detector.DConfig) (now : Z) (d : Detector.GlitchDetector) :
  Detector.sigwinchCount d <= Detector.sigwinchCount (Detector.onSigwinch cfg now d).
Proof.
  unfold Detector.onSigwinch; simpl. destruct (_ <? _); lia.
Qed.

Lemma reinstall_process_on (s : Sys) :
  process_on (detector_install (detector_disable s)) = DetectorWrapper :: process_on s.
Proof. reflexivity. Qed.

(** The detector's [disable()] does not unwrap [process.on]: each
    disable/install cycle adds one more detector wrapper in front of the
    stack, so a SIGWINCH handler registered afterwards carries one more
    [onSigwinch()] layer; each call of that handler (whenever the resize
    debounce or the emitter makes it) raises the SIGWINCH counter by at
    least the number of layers minus one (when the rapid-succession
    threshold is positive). *)
Theorem detector_reinstall_wraps (s : Sys) (n : nat) (cfg : Detector.DConfig) (now : Z)
    (d : Detector.GlitchDetector) :
  let s' := Nat.iter n (fun s => detector_install (detector_disable s)) s in
  handler_detector_wraps (process_on s') = (handler_detector_wraps (process_on s) + n)%nat /\
  (0 < Detector.sigwinchThresholdMs cfg ->
   Detector.sigwinchCount d + Z.of_nat (handler_detector_wraps (process_on s')) - 1
   <= Detector.sigwinchCount (invoke_handler cfg now (process_on s') d)).
Proof.
  intros s'.
  assert (Hw : handler_detector_wraps (process_on s') =
               (handler_detector_wraps (process_on s) + n)%nat).
  { subst s'. induction n as [|n IH]; [simpl; lia|].
    rewrite Nat.iter_succ, reinstall_process_on. simpl. rewrite IH. lia. }
  split; [exact Hw|]. intros Hth.
  unfold invoke_handler. generalize (handler_detector_wraps (process_on s')) as k.
  intros k. destruct k as [|k]; [simpl; lia|].
  rewrite Nat2Z.inj_succ.
  assert (Hk : forall d0, Detector.lastSigwinchTime d0 = now ->
            Detector.lastSigwinchTime (Nat.iter k (Detector.onSigwinch cfg now) d0) = now /\
            Detector.sigwinchCount d0 + Z.of_nat k
            <= Detector.sigwinchCount (Nat.iter k (Detector.onSigwinch cfg now) d0)).
  { induction k as [|k IH]; intros d0 H0; [simpl; split; [exact H0 | lia]|].
    rewrite Nat2Z.inj_succ, Nat.iter_succ.
    destruct (IH d0 H0) as [L C].
    unfold Detector.onSigwinch at 1 3. cbn [Detector.lastSigwinchTime Detector.sigwinchCount].
    rewrite L. rewrite Z.sub_diag.
    replace (0 <? Detector.sigwinchThresholdMs cfg) with true
      by (symmetry; apply Z.ltb_lt; lia).
    split; [reflexivity | lia]. }
  rewrite Nat.iter_succ_r.
  destruct (Hk (Detector.onSigwinch cfg now d) eq_refl) as [_ Hk'].
  pose proof (onSigwinch_count cfg now d). lia.
Qed.

End LifecycleExtProps.

Module DetectorExtProps.
Import Detector DetectorExt.

Ltac check_cases :=
  unfold checkGlitchState, checkStdinSilence, checkSigwinchStorm, checkRenderSpike,
    vote_transition;
  repeat (cbn beta iota zeta delta [negb andb orb with_metrics with_glitch metrics
            isGlitched glitchStartTime sigwinchCount renderTimes];
          match goal with |- context [if ?b then _ else _] =>
            let E := fresh "E" in destruct b eqn:E end).

(** The SIGWINCH counter of a reachable detector is never negative. *)
Theorem sigwinchCount_nonneg (cfg : DConfig) (d : GlitchDetector)
    (Hr : DetectorProps.reachable cfg d) : 0 <= sigwinchCount d.
Proof.
  induction Hr as [now|now d _ IH|now d _ IH|now d _ IH|d _ IH|now d _ IH|d _ IH|now d _ IH].
  - simpl; lia.
  - revert IH. check_cases; cbn; lia.
  - exact IH.
  - unfold onSigwinch; simpl. destruct (_ <? _); lia.
  - unfold sigwinchDecay; simpl. destruct (0 <? sigwinchCount d) eqn:E;
      [apply Z.ltb_lt in E|]; lia.
  - exact IH.
  - exact IH.
  - simpl; lia.
Qed.

Lemma sigwinchCount_nonneg_witness :
  DetectorProps.reachable DEFAULT_CONFIG (onSigwinch DEFAULT_CONFIG 3005 detector_glitched) /\
  0 <= sigwinchCount (onSigwinch DEFAULT_CONFIG 3005 detector_glitched).
Proof.
  assert (H : DetectorProps.reachable DEFAULT_CONFIG
                (onSigwinch DEFAULT_CONFIG 3005 detector_glitched))
    by exact (DetectorProps.reach_sigwinch DEFAULT_CONFIG 3005 _
                (DetectorProps.reach_check DEFAULT_CONFIG 3000 (create 0)
                   (DetectorProps.reach_create DEFAULT_CONFIG 0))).
  split; [exact H|]. exact (sigwinchCount_nonneg DEFAULT_CONFIG _ H).
Defined.

(** No detector operation decreases a metric counter; [reset()] keeps
    the metrics. *)
Theorem metrics_monotone (cfg : DConfig) (d d' : GlitchDetector)
    (Hs : det_step cfg d d') : metrics_le (metrics d) (metrics d').
Proof.
  unfold metrics_le.
  destruct Hs as [now d|now d|now d|d|now d|d|now d].
  - check_cases; cbn; lia.
  - simpl; lia.
  - simpl; lia.
  - simpl; lia.
  - simpl; lia.
  - simpl; lia.
  - simpl; lia.
Qed.

Lemma metrics_monotone_witness :
  det_step DEFAULT_CONFIG (create 0) detector_glitched /\
  metrics_le (metrics (create 0)) (metrics detector_glitched).
Proof.
  assert (H : det_step DEFAULT_CONFIG (create 0) detector_glitched)
    by exact (step_check DEFAULT_CONFIG 3000 (create 0)).
  split; [exact H|]. exact (metrics_monotone DEFAULT_CONFIG _ _ H).
Defined.

(** A periodic check emits [glitch-detected] exactly when it moves the
    detector from Normal to Glitched, and [glitchesDetected] grows by one
    exactly then. *)
Theorem detections_counted (cfg : DConfig) (now : Z) (d : GlitchDetector) :
  let '(_, d', evs) := checkGlitchState cfg now d in
  ((exists s w r, In (GlitchDetectedEv s w r) evs) <->
   isGlitched d = false /\ isGlitched d' = true) /\
  glitchesDetected (metrics d') =
    glitchesDetected (metrics d) + (if negb (isGlitched d) && isGlitched d' then 1 else 0).
Proof.
  destruct (isGlitched d) eqn:G; check_cases; rewrite ?G in *; cbn in *;
    try discriminate;
    (split; [split; [intros (s & w & r & H); simpl in H;
                      repeat destruct H as [H|H]; try discriminate; try contradiction; split; reflexivity
                    | intros [H1 H2]; try discriminate; do 3 eexists; left; reflexivity]
            | lia]).
Qed.

(** When a glitched detector with a non-zero start time resolves, the
    [glitch-resolved] event carries the value [getGlitchDuration()]
    returned just before, and afterwards [getGlitchDuration()] is 0; while
    the glitch persists no event is emitted and the duration keeps counting
    from the same start. *)
Theorem resolved_event_duration (cfg : DConfig) (now t : Z) (d : GlitchDetector)
    (Hg : isGlitched d = true) (Ht : glitchStartTime d = Some t) (Hnz : t <> 0) :
  let '(g, d', evs) := checkGlitchState cfg now d in
  (g = false ->
   evs = [GlitchResolvedEv (getGlitchDuration now d)] /\ getGlitchDuration now d' = 0) /\
  (g = true -> evs = [] /\ getGlitchDuration now d' = getGlitchDuration now d).
Proof.
  assert (Hd : getGlitchDuration now d = now - t).
  { unfold getGlitchDuration. rewrite Hg, Ht. cbn.
    replace (t =? 0) with false by (symmetry; apply Z.eqb_neq; exact Hnz). reflexivity. }
  rewrite Hd. unfold getGlitchDuration.
  check_cases; rewrite ?Hg, ?Ht in *; cbn in *; try discriminate;
    (split; intros H; try discriminate; split; try reflexivity).
  all: replace (t =? 0) with false by (symmetry; apply Z.eqb_neq; exact Hnz);
    reflexivity.
Qed.

Lemma resolved_event_duration_witness :
  isGlitched detector_glitched = true /\ glitchStartTime detector_glitched = Some 3000 /\
  3000 <> 0 /\
  (let '(g, d', evs) := checkGlitchState DEFAULT_CONFIG 4000 detector_glitched in
   (g = false ->
    evs = [GlitchResolvedEv (getGlitchDuration 4000 detector_glitched)] /\
    getGlitchDuration 4000 d' = 0) /\
   (g = true -> evs = [] /\
    getGlitchDuration 4000 d' = getGlitchDuration 4000 detector_glitched)).
Proof.
  assert (Hnz : 3000 <> 0) by lia.
  split; [reflexivity|]. split; [reflexivity|]. split; [exact Hnz|].
  exact (resolved_event_duration DEFAULT_CONFIG 4000 3000 detector_glitched
           eq_refl eq_refl Hnz).
Defined.

Lemma nondecreasing_snoc (ts : list Z) (x : Z) :
  nondecreasing (ts ++ [x]) = true ->
  nondecreasing ts = true /\ Forall (fun t => t <= x) ts.
Proof.
  induction ts as [|a ts IH]; intros H; [split; [reflexivity | constructor]|].
  simpl in H. apply andb_true_iff in H as [Ha Hr].
  destruct (IH Hr) as [IH1 IH2].
  rewrite forallb_app in Ha. apply andb_true_iff in Ha as [Ha Hx].
  simpl in Hx. rewrite andb_true_r in Hx. apply Z.leb_le in Hx.
  split; [simpl; rewrite Ha, IH1; reflexivity | constructor; assumption].
Qed.

Lemma filter_window (ts : list Z) (l x : Z) (Hl : l <= x) :
  filter (fun t => x - t <? 60000) (filter (fun t => l - t <? 60000) ts) =
  filter (fun t => x - t <? 60000) ts.
Proof.
  induction ts as [|a ts IH]; [reflexivity|].
  simpl. destruct (l - a <? 60000) eqn:E1; simpl.
  - destruct (x - a <? 60000); rewrite IH; reflexivity.
  - destruct (x - a <? 60000) eqn:E2; [|exact IH].
    apply Z.ltb_ge in E1. apply Z.ltb_lt in E2. lia.
Qed.

Lemma last_in (ts : list Z) (a : Z) : ts <> [] -> In (last ts a) ts.
Proof.
  induction ts as [|b ts IH]; intros H; [contradiction|].
  destruct ts as [|c ts]; [left; reflexivity|].
  right. apply IH. discriminate.
Qed.

(** Output samples arriving in time order, starting from no samples:
    [renderTimes] holds exactly the samples less than one minute older than
    the latest one. *)
Theorem render_window (ts : list Z) (d : GlitchDetector)
    (Hd : renderTimes d = []) (Hs : nondecreasing ts = true) :
  renderTimes (track_all ts d) = filter (fun t => last ts 0 - t <? 60000) ts.
Proof.
  revert Hs. induction ts as [|x ts IH] using rev_ind; intros Hs; [exact Hd|].
  destruct (nondecreasing_snoc ts x Hs) as [Hs' Hle].
  unfold track_all in *. rewrite fold_left_app. cbn [fold_left].
  unfold trackStdout at 1. cbn [renderTimes].
  rewrite (IH Hs'), last_last, !filter_app.
  destruct ts as [|a ts']; [reflexivity|].
  rewrite filter_window; [reflexivity|].
  apply (proj1 (Forall_forall _ _) Hle). apply last_in. discriminate.
Qed.

Lemma render_window_witness :
  renderTimes (create 0) = [] /\ nondecreasing [1000; 30000; 70000] = true /\
  renderTimes (track_all [1000; 30000; 70000] (create 0)) =
    filter (fun t => last [1000; 30000; 70000] 0 - t <? 60000) [1000; 30000; 70000].
Proof.
  split; [reflexivity|]. split; [reflexivity|].
  exact (render_window [1000; 30000; 70000] (create 0) eq_refl eq_refl).
Defined.

End DetectorExtProps.

Module RecoveryExtProps.
Import Detector Recovery DetectorExt RecoveryProps.

Lemma check_isGlitched (cfg : DConfig) (now : Z) (d : GlitchDetector) :
  let '(g, d', _) := checkGlitchState cfg now d in isGlitched d' = g.
Proof.
  unfold checkGlitchState.
  destruct (checkStdinSilence cfg now d) as [s d1].
  destruct (checkSigwinchStorm cfg d1) as [w d2].
  destruct (checkRenderSpike cfg d2) as [r d3].
  pose proof (DetectorProps.vote_transition_isGlitched s w r now d3) as H.
  destruct (vote_transition s w r now d3) as [[g d'] evs].
  exact (proj2 H).
Qed.

(** [forceRecovery()] returns [true] only if the detector (when loaded)
    ends up not glitched; it rejects only without a detector, when the
    scrollback write throws; [recovery-failed] leaves the detector glitched;
    without a detector it writes the scrollback clear and emits nothing. *)
Theorem forceRecovery_outcome (cfg : DConfig) (env : RecEnv)
    (det0 : option GlitchDetector) :
  let '(o, det1, evs, acts) := forceRecovery cfg env det0 in
  (o = Ok true -> forall d', det1 = Some d' -> isGlitched d' = false) /\
  (o = Thrown -> det0 = None /\ stdout_write_throws env = true) /\
  (In RecoveryFailed evs -> exists d', det1 = Some d' /\ isGlitched d' = true) /\
  (det0 = None -> evs = [] /\ acts = [WriteClearScrollback]).
Proof.
  destruct det0 as [d|]; cbn [forceRecovery].
  2: { destruct (stdout_write_throws env); repeat split; intros;
       try discriminate; try contradiction; auto. }
  unfold attemptRecovery.
  destruct (isGlitched d) eqn:Hg; cbn [negb].
  2: { repeat split; intros; try discriminate; try contradiction;
       match goal with H : Some _ = Some _ |- _ => injection H as <- end; exact Hg. }
  unfold recovery_body, method1, method2, execSync, stdout_write_clear, sleep, check.
  unfold try_catch, bind, ret, throw, emit, perform, modify_det.
  cbn [negb det events actions app].
  destruct (js_or (env_STY env) (env_SPECMEM_SCREEN_SESSION env)) as [ses|] eqn:Es;
    [destruct (truthy (Some ses)) eqn:Et|];
    destruct (execSync_throws env) eqn:Ex, (stdout_isTTY env) eqn:Etty,
      (stdout_write_throws env) eqn:Ew;
    cbn beta iota zeta;
    repeat match goal with
           | |- context [checkGlitchState ?c ?n ?x] =>
               let He := fresh "He" in
               let Hi := fresh "Hi" in
               pose proof (check_events c n x) as He;
               pose proof (check_isGlitched c n x) as Hi;
               destruct (checkGlitchState c n x) as [[?g ?d'] ?evs];
               destruct g; cbn [negb det events actions app]
           end.
  all: cbn [negb det events actions app].
  all: repeat split; intros;
    repeat match goal with
           | H : In _ (_ :: _) |- _ => destruct H as [H|H]
           | H : In _ (_ ++ _) |- _ => apply in_app_iff in H as [H|H]
           | H : In _ [] |- _ => destruct H
           | H : Some _ = Some _ |- _ => injection H as <-
           end;
    try discriminate; try ev_absurd; try congruence;
    try (eexists; split; [reflexivity | assumption]).
Qed.

End RecoveryExtProps.

Module DebounceExtProps.
Import Debounce.

(** The debouncer invokes the resize callbacks at most once per
    notification, plus once for a timer already pending. *)
Theorem run_call_count (W : Z) (ts : list Z) (d : Deb) :
  (List.length (run W ts d) <= List.length ts + (if pending d then 1 else 0))%nat.
Proof.
  revert d. induction ts as [|t rest IH]; intros d.
  - simpl. destruct (pending d); simpl; lia.
  - assert (Hdeb : forall d1,
              (List.length (let '(d2, now_calls) := debouncedSigwinch W t d1 in
                            now_calls ++ run W rest d2) <= S (List.length rest))%nat).
    { intros d1. unfold debouncedSigwinch.
      destruct (t - lastResizeTime d1 <? W); rewrite length_app;
        [specialize (IH {| lastResizeTime := t; pending := Some (t + W) |})
        |specialize (IH {| lastResizeTime := t; pending := None |})]; simpl in *; lia. }
    cbn [run List.length].
    destruct (pending d) as [due|]; [destruct (due <=? t)|].
    + specialize (Hdeb {| lastResizeTime := lastResizeTime d; pending := None |}).
      destruct (debouncedSigwinch W t _) as [d2 nc]. simpl in *. lia.
    + specialize (Hdeb d). destruct (debouncedSigwinch W t d) as [d2 nc].
      simpl in *. lia.
    + specialize (Hdeb d). destruct (debouncedSigwinch W t d) as [d2 nc].
      simpl in *. lia.
Qed.

(** Every callback invocation happens at a notification time, or
    [resizeDebounceMs] after one, or at the due time of the timer pending
    at the start. *)
Theorem run_call_origin (W : Z) (ts : list Z) (d : Deb) (c : Z) :
  In c (run W ts d) ->
  pending d = Some c \/ exists t, In t ts /\ (c = t \/ c = t + W).
Proof.
  revert d. induction ts as [|t rest IH]; intros d Hc.
  - simpl in Hc. destruct (pending d) as [due|] eqn:P; [|contradiction].
    destruct Hc as [<-|[]]. left; reflexivity.
  - simpl in Hc.
    assert (Hdeb : forall d1, In c (snd (debouncedSigwinch W t d1) ++
                                    run W rest (fst (debouncedSigwinch W t d1))) ->
                   exists t0, In t0 (t :: rest) /\ (c = t0 \/ c = t0 + W)).
    { intros d1 H. unfold debouncedSigwinch in H.
      destruct (t - lastResizeTime d1 <? W); simpl in H.
      - destruct (IH _ H) as [Hp|(t0 & Ht0 & Hc0)].
        + injection Hp as <-. exists t; split; [left; reflexivity | right; reflexivity].
        + exists t0; split; [right; exact Ht0 | exact Hc0].
      - destruct H as [<-|H]; [exists t; split; [left; reflexivity | left; reflexivity]|].
        destruct (IH _ H) as [Hp|(t0 & Ht0 & Hc0)]; [discriminate|].
        exists t0; split; [right; exact Ht0 | exact Hc0]. }
    destruct (pending d) as [due|] eqn:P.
    + destruct (due <=? t).
      * destruct (debouncedSigwinch W t _) as [d2 nc] eqn:D.
        destruct Hc as [<-|Hc]; [left; reflexivity|].
        right. apply (Hdeb {| lastResizeTime := lastResizeTime d; pending := None |}).
        rewrite D. exact Hc.
      * destruct (debouncedSigwinch W t d) as [d2 nc] eqn:D.
        right. apply (Hdeb d). rewrite D. exact Hc.
    + destruct (debouncedSigwinch W t d) as [d2 nc] eqn:D.
      right. apply (Hdeb d). rewrite D. exact Hc.
Qed.

Lemma run_call_origin_witness :
  In 1200 (run 150 [1000; 1050] init) /\
  (pending init = Some 1200 \/ exists t, In t [1000; 1050] /\ (1200 = t \/ 1200 = t + 150)).
Proof.
  assert (H : In 1200 (run 150 [1000; 1050] init)) by (simpl; tauto).
  split; [exact H|]. exact (run_call_origin 150 [1000; 1050] init 1200 H).
Defined.

(** The last notification of a series is never dropped: the final
    invocation happens at its time or [resizeDebounceMs] after it. *)
Theorem run_last_honoured (W : Z) (pre : list Z) (tN : Z) (d : Deb) :
  exists calls, run W (pre ++ [tN]) d = calls ++ [tN] \/
                run W (pre ++ [tN]) d = calls ++ [tN + W].
Proof.
  revert d. induction pre as [|t rest IH]; intros d.
  - cbn [app run].
    assert (Hdeb : forall (fired : list Z) d1, exists calls,
               (let '(d2, now_calls) := debouncedSigwinch W tN d1 in
                fired ++ now_calls ++ run W [] d2) = calls ++ [tN] \/
               (let '(d2, now_calls) := debouncedSigwinch W tN d1 in
                fired ++ now_calls ++ run W [] d2) = calls ++ [tN + W]).
    { intros fired d1. unfold debouncedSigwinch.
      destruct (tN - lastResizeTime d1 <? W); exists fired; simpl;
        rewrite ?app_nil_r; auto. }
    destruct (pending d) as [due|]; [destruct (due <=? tN)|].
    + exact (Hdeb [due] _).
    + exact (Hdeb [] d).
    + exact (Hdeb [] d).
  - cbn [app run].
    assert (Hdeb : forall (fired : list Z) d1, exists calls,
               (let '(d2, now_calls) := debouncedSigwinch W t d1 in
                fired ++ now_calls ++ run W (rest ++ [tN]) d2) = calls ++ [tN] \/
               (let '(d2, now_calls) := debouncedSigwinch W t d1 in
                fired ++ now_calls ++ run W (rest ++ [tN]) d2) = calls ++ [tN + W]).
    { intros fired d1. destruct (debouncedSigwinch W t d1) as [d2 nc].
      destruct (IH d2) as [calls Hc].
      exists (fired ++ nc ++ calls). rewrite !app_assoc.
      destruct Hc as [Hc|Hc]; rewrite Hc, !app_assoc; auto. }
    destruct (pending d) as [due|]; [destruct (due <=? t)|].
    + exact (Hdeb [due] _).
    + exact (Hdeb [] d).
    + exact (Hdeb [] d).
Qed.

End DebounceExtProps.

Module ConfigObjProps.
Import ConfigObj.






End ConfigObjProps.
